(** * Expense tracker: the ledger and its JSON persistence

    A shallow embedding of [src/expensetracker.py] (classes [Expense] and
    [ExpenseTracker]; the tkinter form is presentation only) together with
    the properties its specification states about it.

    Python is dynamically typed, so the values that flow through the
    ledger are modelled by one universe [pyval]; the built-ins the code
    calls ([float], [sum], [+], [strptime], [strftime], [json.dump],
    [json.load]) are modelled next to it, each from its documented
    behaviour; where the behaviour depends on the interpreter or on the
    C library under it -- how [sum] adds floats, how [strftime] writes a
    year below 1000 --, the model takes the choice as a parameter. *)

From Stdlib Require Import ZArith List String Ascii Bool Lia Permutation.
From Stdlib Require Import Floats.SpecFloat DecimalString.
Import ListNotations.
Open Scope string_scope.
Open Scope list_scope.
Open Scope Z_scope.

Set Warnings "-register-all".

(** ** Python values *)

Module Py.

(** Exceptions are identified by their class; messages are not modelled.
    [ValueError] is the class [add_expense] re-raises for bad input, and
    [Exception] the bare base class it and the persistence methods raise
    for everything else. *)
Inductive exn : Set :=
| ValueError | TypeError | KeyError | AttributeError | OverflowError
| OSError | Exception.

Definition is_ValueError (e : exn) : bool :=
  match e with ValueError => true | _ => false end.

Inductive result (A : Type) : Type :=
| Ok (a : A)
| Raise (e : exn).
Arguments Ok {A} a.
Arguments Raise {A} e.

Definition bind {A B} (r : result A) (k : A -> result B) : result B :=
  match r with Ok a => k a | Raise e => Raise e end.

Declare Scope py_scope.
Delimit Scope py_scope with py.
Notation "x <- r ;; k" := (bind r (fun x => k))
  (at level 61, r at next level, right associativity) : py_scope.
Open Scope py_scope.

(** Sequencing over a list, left to right, stopping at the first raise
    (a list comprehension whose element expression may raise). *)
Fixpoint mapM {A B} (f : A -> result B) (l : list A) : result (list B) :=
  match l with
  | [] => Ok []
  | a :: l' => b <- f a ;; bs <- mapM f l' ;; Ok (b :: bs)
  end.

(** Filtering with a predicate that may raise. *)
Fixpoint filterM {A} (p : A -> result bool) (l : list A) : result (list A) :=
  match l with
  | [] => Ok []
  | a :: l' =>
      b <- p a ;; r <- filterM p l' ;; Ok (if b then a :: r else r)
  end.

(** A Python [float] is an IEEE 754 binary64 number, kept in the
    canonical form that [float_of_string], [float_of_int] and [fadd]
    produce (the comparisons rely on it). *)
Definition float := spec_float.
Definition prec : Z := 53.
Definition emax : Z := 1024.

Definition fzero : float := S754_zero false.
Definition fadd : float -> float -> float := SFadd prec emax.
Definition fsub : float -> float -> float := SFsub prec emax.
Definition fdiv : float -> float -> float := SFdiv prec emax.
Definition fabs : float -> float := SFabs.
Definition fleb : float -> float -> bool := SFleb.
Definition fltb : float -> float -> bool := SFltb.

(** Correctly rounded conversion of the integer [m * 2^e]. *)
Definition float_of_scaled (m e : Z) : float := binary_normalize prec emax m e false.

(** [float(n)] for an [int]: rounds to nearest, [OverflowError] when the
    integer is too large for a float. *)
Definition float_of_int (n : Z) : result float :=
  match float_of_scaled n 0 with
  | S754_infinity _ => Raise OverflowError
  | f => Ok f
  end.

(** Values.  Dictionaries are association lists with string keys, as
    [json.load] and [to_dict] build them; a date is a [datetime.date]. *)
Inductive pyval : Type :=
| PyNone
| PyBool (b : bool)
| PyInt (n : Z)
| PyFloat (f : float)
| PyStr (s : string)
| PyDate (y m d : Z)
| PyList (l : list pyval)
| PyDict (kv : list (string * pyval)).

(** [d[k]] and [d.get(k)] on a dictionary. *)
Fixpoint lookup (k : string) (kv : list (string * pyval)) : option pyval :=
  match kv with
  | [] => None
  | (k', v) :: kv' => if String.eqb k k' then Some v else lookup k kv'
  end.

(** The truth value of an object ([if x:], [not x]). *)
Definition truthy (v : pyval) : bool :=
  match v with
  | PyNone => false
  | PyBool b => b
  | PyInt n => negb (n =? 0)
  | PyFloat f => negb (SFeqb f fzero)
  | PyStr s => negb (String.eqb s "")
  | PyDate _ _ _ => true
  | PyList l => match l with [] => false | _ => true end
  | PyDict kv => match kv with [] => false | _ => true end
  end.

(** *** [float(s)] for a string

    Characters are code points below 256, so the decimal digits are the
    ASCII ones.  [float] accepts an optionally signed decimal numeral
    with optional fraction and exponent, [inf], [infinity] and [nan] in
    any letter case, single underscores between digits, and surrounding
    white space; the numeral is rounded to the nearest float (ties to
    even), an overlarge one to an infinity.  Anything else is a
    [ValueError]. *)

Definition code (c : ascii) : Z := Z.of_N (N_of_ascii c).

Definition is_digit (c : ascii) : bool := (48 <=? code c) && (code c <=? 57).

Definition digit_val (c : ascii) : Z := code c - 48.

Definition is_space (c : ascii) : bool :=
  let n := code c in
  ((9 <=? n) && (n <=? 13)) || (n =? 32) || (n =? 133) || (n =? 160).

Definition lower (c : ascii) : ascii :=
  let n := code c in
  if (65 <=? n) && (n <=? 90) then ascii_of_N (Z.to_N (n + 32)) else c.

Definition chars (s : string) : list ascii := list_ascii_of_string s.

Fixpoint lstrip (l : list ascii) : list ascii :=
  match l with
  | c :: l' => if is_space c then lstrip l' else l
  | [] => []
  end.

Definition strip (l : list ascii) : list ascii := rev (lstrip (rev (lstrip l))).

(** Underscores are dropped; one is legal only between two digits.
    [prev] is the previous character of the input, if any. *)
Fixpoint drop_underscores (prev : option ascii) (l : list ascii)
  : option (list ascii) :=
  let prev_digit := match prev with Some p => is_digit p | None => false end in
  let prev_under := match prev with Some p => Ascii.eqb p "_" | None => false end in
  match l with
  | [] => if prev_under then None else Some []
  | c :: l' =>
      if Ascii.eqb c "_" then
        if prev_digit then drop_underscores (Some c) l' else None
      else if prev_under && negb (is_digit c) then None
      else option_map (cons c) (drop_underscores (Some c) l')
  end.

(** The longest prefix of digits, as their values, and what follows. *)
Fixpoint span_digits (l : list ascii) : list Z * list ascii :=
  match l with
  | c :: l' =>
      if is_digit c
      then let '(ds, r) := span_digits l' in (digit_val c :: ds, r)
      else ([], l)
  | [] => ([], [])
  end.

Definition decimal (ds : list Z) : Z := fold_left (fun a d => 10 * a + d) ds 0.

Definition split_sign (l : list ascii) : bool * list ascii :=
  match l with
  | c :: l' =>
      if Ascii.eqb c "-" then (true, l')
      else if Ascii.eqb c "+" then (false, l')
      else (false, l)
  | [] => (false, [])
  end.

(** The exponent part [e[+-]digits]; without digits it is not consumed. *)
Definition parse_exponent (l : list ascii) : Z * list ascii :=
  match l with
  | c :: l' =>
      if Ascii.eqb (lower c) "e" then
        let '(neg, l2) := split_sign l' in
        match span_digits l2 with
        | ([], _) => (0, l)
        | (ds, r) => (if neg then - decimal ds else decimal ds, r)
        end
      else (0, l)
  | [] => (0, [])
  end.

(** [digits [. digits] [exponent]] with at least one digit: the integer
    mantissa, the decimal exponent and the unread rest. *)
Definition parse_decimal (l : list ascii) : option (Z * Z * list ascii) :=
  let '(ip, r1) := span_digits l in
  let '(fp, r2) :=
    match r1 with
    | c :: r => if Ascii.eqb c "." then span_digits r else ([], r1)
    | [] => ([], r1)
    end in
  match ip ++ fp with
  | [] => None
  | ds =>
      let '(e, r3) := parse_exponent r2 in
      Some (decimal ds, e - Z.of_nat (List.length fp), r3)
  end.

(** The float nearest to [(-1)^neg * m * 10^e], for [m >= 0]. *)
Definition float_of_decimal (neg : bool) (m e : Z) : float :=
  match m with
  | Zpos p =>
      if 0 <=? e
      then float_of_scaled ((if neg then - m else m) * 10 ^ e) 0
      else fdiv (S754_finite neg p 0) (S754_finite false (Z.to_pos (10 ^ (- e))) 0)
  | _ => S754_zero neg
  end.

Definition float_of_string (s : string) : result float :=
  match drop_underscores None (chars s) with
  | None => Raise ValueError
  | Some l =>
      let '(neg, body) := split_sign (strip l) in
      let word := string_of_list_ascii (map lower body) in
      if String.eqb word "inf" || String.eqb word "infinity"
      then Ok (S754_infinity neg)
      else if String.eqb word "nan" then Ok S754_nan
      else match parse_decimal body with
           | Some (m, e, []) => Ok (float_of_decimal neg m e)
           | _ => Raise ValueError
           end
  end.

(** The built-in [float(x)]. *)
Definition py_float (v : pyval) : result float :=
  match v with
  | PyFloat f => Ok f
  | PyInt n => float_of_int n
  | PyBool b => float_of_int (if b then 1 else 0)
  | PyStr s => float_of_string s
  | PyNone | PyDate _ _ _ | PyList _ | PyDict _ => Raise TypeError
  end.

(** *** Arithmetic: [a + b] and [sum] *)

Definition as_int (v : pyval) : option Z :=
  match v with
  | PyBool b => Some (if b then 1 else 0)
  | PyInt n => Some n
  | _ => None
  end.

(** [a + b].  Integers (and booleans) add exactly, floats with one
    rounding; an integer meeting a float is converted first. *)
Definition py_add (a b : pyval) : result pyval :=
  match a, b with
  | PyFloat x, PyFloat y => Ok (PyFloat (fadd x y))
  | PyStr s, PyStr t => Ok (PyStr (s ++ t)%string)
  | PyList l, PyList k => Ok (PyList (l ++ k))
  | PyFloat x, _ =>
      match as_int b with
      | Some n => y <- float_of_int n ;; Ok (PyFloat (fadd x y))
      | None => Raise TypeError
      end
  | _, PyFloat y =>
      match as_int a with
      | Some n => x <- float_of_int n ;; Ok (PyFloat (fadd x y))
      | None => Raise TypeError
      end
  | _, _ =>
      match as_int a, as_int b with
      | Some n, Some k => Ok (PyInt (n + k))
      | _, _ => Raise TypeError
      end
  end.

(** [acc + x1 + ... + xn], from left to right. *)
Fixpoint add_all (acc : pyval) (l : list pyval) : result pyval :=
  match l with
  | [] => Ok acc
  | x :: l' => acc' <- py_add acc x ;; add_all acc' l'
  end.

(** The built-in [sum(iterable)] adds the items to the integer [0] from
    left to right.  How it adds floats depends on the interpreter:
    plainly, one rounded addition per item (CPython up to 3.11), or
    carrying the rounding errors along in a compensation term that is
    added at the end (Neumaier's algorithm, CPython from 3.12). *)
Inductive summation : Set := Plain | Compensated.

Definition is_finite (x : float) : bool :=
  match x with S754_zero _ | S754_finite _ _ _ => true | _ => false end.

(** One step of the compensated sum: the running sum [f] and the
    compensation [c] take in the float [x]. *)
Definition neumaier_step (s : float * float) (x : float) : float * float :=
  let '(f, c) := s in
  let t := fadd f x in
  (t, if fleb (fabs x) (fabs f)
      then fadd c (fadd (fsub f t) x)
      else fadd c (fadd (fsub x t) f)).

(** The compensation joins the sum when it is non-zero and finite. *)
Definition flush (s : float * float) : float :=
  let '(f, c) := s in
  if negb (SFeqb c fzero) && is_finite c then fadd f c else f.

(** The integers the fast paths of [sum] handle: those of a 64-bit
    machine word. *)
Definition fits_long (n : Z) : bool := (- 2 ^ 63 <=? n) && (n <? 2 ^ 63).

(** The compensated sum once the running total is a float: floats are
    compensated, small integers added plainly; anything else ends the
    compensation and is added with [+], as is all that follows. *)
Fixpoint sum_float (s : float * float) (l : list pyval) : result pyval :=
  match l with
  | [] => Ok (PyFloat (flush s))
  | x :: l' =>
      let generic := r <- py_add (PyFloat (flush s)) x ;; add_all r l' in
      match x with
      | PyFloat y => sum_float (neumaier_step s y) l'
      | _ =>
          match as_int x with
          | Some n =>
              if fits_long n
              then match float_of_int n with
                   | Ok y => sum_float (fadd (fst s) y, snd s) l'
                   | Raise _ => generic
                   end
              else generic
          | None => generic
          end
      end
  end.

(** ... and while it is still an integer. *)
Fixpoint sum_int (i : Z) (l : list pyval) : result pyval :=
  match l with
  | [] => Ok (PyInt i)
  | x :: l' =>
      match as_int x with
      | Some n =>
          if fits_long n && fits_long (i + n)
          then sum_int (i + n) l'
          else add_all (PyInt (i + n)) l'
      | None =>
          r <- py_add (PyInt i) x ;;
          match r with
          | PyFloat f => sum_float (f, fzero) l'
          | _ => add_all r l'
          end
      end
  end.

Definition py_sum (how : summation) (l : list pyval) : result pyval :=
  match how with
  | Plain => add_all (PyInt 0) l
  | Compensated => sum_int 0 l
  end.

(** *** Dictionary keys *)

Definition hashable (v : pyval) : bool :=
  match v with PyList _ | PyDict _ => false | _ => true end.

(** Does the float [f] denote exactly the integer [n]? *)
Definition float_eq_int (f : float) (n : Z) : bool :=
  match f with
  | S754_zero _ => n =? 0
  | S754_finite s m e =>
      let v := cond_Zopp s (Zpos m) in
      if 0 <=? e then v * 2 ^ e =? n else v =? n * 2 ^ (- e)
  | _ => false
  end.

(** Two hashable objects name the same dictionary entry when they are
    the same object or compare equal: numbers by value across [bool],
    [int] and [float], strings and dates by content. *)
Definition key_eq (a b : pyval) : bool :=
  match a, b with
  | PyNone, PyNone => true
  | PyStr s, PyStr t => String.eqb s t
  | PyDate y m d, PyDate y' m' d' => (y =? y') && (m =? m') && (d =? d')
  | PyFloat S754_nan, PyFloat S754_nan => true
  | PyFloat x, PyFloat y => SFeqb x y
  | PyFloat x, _ =>
      match as_int b with Some n => float_eq_int x n | None => false end
  | _, PyFloat y =>
      match as_int a with Some n => float_eq_int y n | None => false end
  | _, _ =>
      match as_int a, as_int b with
      | Some n, Some k => n =? k
      | _, _ => false
      end
  end.

(** ** Dates: [strptime] and [strftime] with the format [%Y-%m-%d] *)

Definition is_leap (y : Z) : bool :=
  (y mod 4 =? 0) && (negb (y mod 100 =? 0) || (y mod 400 =? 0)).

Definition days_in_month (y m : Z) : Z :=
  if m =? 2 then (if is_leap y then 29 else 28)
  else if (m =? 4) || (m =? 6) || (m =? 9) || (m =? 11) then 30
  else 31.

(** The dates [datetime.date] can hold. *)
Definition valid_date (y m d : Z) : bool :=
  (1 <=? y) && (y <=? 9999) && (1 <=? m) && (m <=? 12)
  && (1 <=? d) && (d <=? days_in_month y m).

Definition in_range (lo hi : ascii) (c : ascii) : bool :=
  (code lo <=? code c) && (code c <=? code hi).

(** [%Y] is the pattern [\d\d\d\d]. *)
Definition match_year (l : list ascii) : option (Z * list ascii) :=
  match l with
  | a :: b :: c :: d :: r =>
      if is_digit a && is_digit b && is_digit c && is_digit d
      then Some (decimal [digit_val a; digit_val b; digit_val c; digit_val d], r)
      else None
  | _ => None
  end.

(** One alternative of a pattern: [first] [second], or a single
    character when [second] is absent. *)
Definition alt2 (p1 p2 : ascii -> bool) (l : list ascii) : list (Z * list ascii) :=
  match l with
  | a :: b :: r =>
      if p1 a && p2 b then [(decimal [digit_val a; digit_val b], r)] else []
  | _ => []
  end.

Definition alt1 (p : ascii -> bool) (l : list ascii) : list (Z * list ascii) :=
  match l with
  | a :: r => if p a then [(digit_val a, r)] else []
  | _ => []
  end.

(** [%m] is [1[0-2]|0[1-9]|[1-9]]: the ways to read a month at the head
    of [l], in the order the matcher tries them. *)
Definition match_month (l : list ascii) : list (Z * list ascii) :=
  alt2 (Ascii.eqb "1") (in_range "0" "2") l
  ++ alt2 (Ascii.eqb "0") (in_range "1" "9") l
  ++ alt1 (in_range "1" "9") l.

(** [%d] is [3[0-1]|[1-2]\d|0[1-9]|[1-9]| [1-9]]. *)
Definition match_day (l : list ascii) : list (Z * list ascii) :=
  alt2 (Ascii.eqb "3") (in_range "0" "1") l
  ++ alt2 (in_range "1" "2") is_digit l
  ++ alt2 (Ascii.eqb "0") (in_range "1" "9") l
  ++ alt1 (in_range "1" "9") l
  ++ match l with
     | a :: r => if Ascii.eqb a " " then alt1 (in_range "1" "9") r else []
     | [] => []
     end.

Definition expect (c : ascii) (l : list ascii) : option (list ascii) :=
  match l with
  | a :: r => if Ascii.eqb a c then Some r else None
  | [] => None
  end.

(** The first candidate whose continuation matches (backtracking). *)
Fixpoint first_match {A B} (k : A -> option B) (cands : list A) : option B :=
  match cands with
  | [] => None
  | a :: cands' => match k a with Some b => Some b | None => first_match k cands' end
  end.

(** The match of the whole pattern at the head of [l]: the three fields
    and the unconverted rest. *)
Definition match_format (l : list ascii) : option (Z * Z * Z * list ascii) :=
  match match_year l with
  | None => None
  | Some (y, r1) =>
      match expect "-" r1 with
      | None => None
      | Some r2 =>
          first_match
            (fun '(m, r3) =>
               match expect "-" r3 with
               | None => None
               | Some r4 =>
                   first_match (fun '(d, r5) => Some (y, m, d, r5)) (match_day r4)
               end)
            (match_month r2)
      end
  end.

(** [datetime.datetime.strptime(s, "%Y-%m-%d").date()]: [ValueError]
    when the text does not match, when data remains after the match, or
    when the fields are not a date. *)
Definition strptime (s : string) : result pyval :=
  match match_format (chars s) with
  | Some (y, m, d, []) =>
      if valid_date y m d then Ok (PyDate y m d) else Raise ValueError
  | _ => Raise ValueError
  end.

Definition digit_char (n : Z) : ascii := ascii_of_N (Z.to_N (48 + n mod 10)).

Definition pad2 (n : Z) : list ascii := [digit_char (n / 10); digit_char n].

Definition pad4 (n : Z) : list ascii :=
  [digit_char (n / 1000); digit_char (n / 100); digit_char (n / 10); digit_char n].

(** How the C library behind [strftime] writes the year of [%Y]: on
    four digits, as documented (Windows, macOS, and every platform from
    CPython 3.13 on), or as a plain number without leading zeros (glibc
    under CPython 3.12 and earlier). *)
Inductive year_style : Set := Padded | Unpadded.

(** The year as a plain number; from 1000 on it has its four digits. *)
Definition plain_year (y : Z) : list ascii :=
  if y <? 10 then [digit_char y]
  else if y <? 100 then [digit_char (y / 10); digit_char y]
  else if y <? 1000 then [digit_char (y / 100); digit_char (y / 10); digit_char y]
  else pad4 y.

(** [%Y] on a year of a date, 1 to 9999. *)
Definition year_digits (libc : year_style) (y : Z) : list ascii :=
  match libc with
  | Padded => pad4 y
  | Unpadded => plain_year y
  end.

(** [date.strftime("%Y-%m-%d")]: the year as the C library writes it,
    month and day zero-padded on two digits. *)
Definition strftime (libc : year_style) (y m d : Z) : string :=
  string_of_list_ascii
    (year_digits libc y ++ "-"%char :: pad2 m ++ "-"%char :: pad2 d).

(** ** The [json] module and the file

    [json.dump] and [json.load] are modelled on the value tree: what
    [dump] accepts (everything but a date) is what [load] returns.  The
    text of the file is not modelled beyond that. *)

Fixpoint serialisable (v : pyval) : bool :=
  match v with
  | PyDate _ _ _ => false
  | PyList l => forallb serialisable l
  | PyDict kv => forallb (fun '(_, x) => serialisable x) kv
  | _ => true
  end.

(** The content of the file at the tracker's path: a JSON document, or
    text [json.load] rejects (also a file cut short by a failed write). *)
Inductive file : Type :=
| Json (doc : pyval)
| Garbled.

(** How the path answers [open(filename, 'w')] and the writes after it:
    normally; refusing the open; or accepting it (which empties the
    file) and failing the write. *)
Inductive medium : Set := Writable | ReadOnly | Full.

(** [disk = None]: no file exists at the path. *)
Record world : Type := { disk : option file; media : medium }.

(** [for item in data]. *)
Definition iterate (data : pyval) : result (list pyval) :=
  match data with
  | PyList l => Ok l
  | PyStr s => Ok (map (fun c => PyStr (String c EmptyString)) (chars s))
  | PyDict kv => Ok (map (fun '(k, _) => PyStr k) kv)
  | _ => Raise TypeError
  end.

(** [data[key]] for a string key. *)
Definition getitem (data : pyval) (key : string) : result pyval :=
  match data with
  | PyDict kv =>
      match lookup key kv with Some v => Ok v | None => Raise KeyError end
  | _ => Raise TypeError
  end.

End Py.

Import Py.

(** ** class [Expense] *)

Record Expense : Type := {
  amount : pyval;
  category : pyval;
  date : pyval;
  description : pyval
}.

(** [Expense.to_dict]: [self.date.strftime] exists only on a date. *)
Definition to_dict (libc : year_style)
    (e : Expense) : result (list (string * pyval)) :=
  match date e with
  | PyDate y m d =>
      Ok [("amount", amount e);
          ("category", category e);
          ("date", PyStr (strftime libc y m d));
          ("description", description e)]
  | _ => Raise AttributeError
  end.

(** [Expense.from_dict]: the date is read and parsed first, then the
    amount and the category are fetched; only the description has a
    default. *)
Definition from_dict (data : pyval) : result Expense :=
  ds <- getitem data "date" ;;
  d <- match ds with PyStr s => strptime s | _ => Raise TypeError end ;;
  a <- getitem data "amount" ;;
  c <- getitem data "category" ;;
  let desc :=
    match data with
    | PyDict kv =>
        match lookup "description" kv with Some v => v | None => PyStr "" end
    | _ => PyStr ""
    end in
  Ok {| amount := a; category := c; date := d; description := desc |}.

(** ** class [ExpenseTracker] *)

(** [self.categories], fixed by the constructor. *)
Definition categories : list string :=
  ["Food"; "Transportation"; "Entertainment"; "Utilities";
   "Rent/Mortgage"; "Healthcare"; "Education"; "Shopping"; "Other"].

(** [category in self.categories]: only a string equals a string. *)
Definition in_categories (c : pyval) : bool :=
  match c with
  | PyStr s => existsb (String.eqb s) categories
  | _ => false
  end.

(** The object's mutable state is the list [self.expenses]. *)
Record ExpenseTracker : Type := { expenses : list Expense }.

(** The [try] block of [save_expenses].  Opening the file for writing
    empties it, so whatever fails afterwards -- [to_dict] on a record
    without a date, [json.dump] on a value it cannot write, the write
    itself -- leaves a file that no longer parses. *)
Definition write_expenses (libc : year_style)
    (t : ExpenseTracker) (w : world) : result unit * world :=
  match media w with
  | ReadOnly => (Raise OSError, w)
  | md =>
      let cut := {| disk := Some Garbled; media := md |} in
      match mapM (to_dict libc) (expenses t) with
      | Raise e => (Raise e, cut)
      | Ok ds =>
          let doc := PyList (map PyDict ds) in
          match md with
          | Writable =>
              if serialisable doc
              then (Ok tt, {| disk := Some (Json doc); media := md |})
              else (Raise TypeError, cut)
          | _ => (Raise OSError, cut)
          end
      end
  end.

(** [save_expenses]: [except Exception] re-raises every failure as a
    bare [Exception]. *)
Definition save_expenses (libc : year_style)
    (t : ExpenseTracker) (w : world) : result unit * world :=
  match write_expenses libc t w with
  | (Raise _, w') => (Raise Exception, w')
  | done => done
  end.

(** The [try] block of [load_expenses]: the records the file holds.
    ([json.load] rejects text that is not JSON with a [ValueError].) *)
Definition read_expenses (w : world) : result (list Expense) :=
  match disk w with
  | Some (Json data) => items <- iterate data ;; mapM from_dict items
  | _ => Raise ValueError
  end.

(** [load_expenses]: nothing happens when the file does not exist;
    [self.expenses] is assigned only after every item converted, and
    every failure is re-raised as a bare [Exception]. *)
Definition load_expenses (t : ExpenseTracker) (w : world)
  : result unit * ExpenseTracker :=
  match disk w with
  | None => (Ok tt, t)
  | Some _ =>
      match read_expenses w with
      | Ok es => (Ok tt, {| expenses := es |})
      | Raise _ => (Raise Exception, t)
      end
  end.

(** [ExpenseTracker.__init__]: an empty ledger, then [load_expenses]. *)
Definition init (w : world) : result ExpenseTracker :=
  match load_expenses {| expenses := [] |} w with
  | (Ok _, t) => Ok t
  | (Raise e, _) => Raise e
  end.

(** [if isinstance(date, str): date = strptime(date, "%Y-%m-%d").date()] *)
Definition parse_if_str (date : pyval) : result pyval :=
  match date with PyStr s => strptime s | _ => Ok date end.

(** The [try] block of [add_expense]: the result, the ledger and the
    file afterwards. *)
Definition try_add_expense (libc : year_style)
    (amount category date description : pyval)
    (t : ExpenseTracker) (w : world)
  : result bool * ExpenseTracker * world :=
  match py_float amount with
  | Raise e => (Raise e, t, w)
  | Ok a =>
      if fleb a fzero then (Raise ValueError, t, w)
      else if negb (in_categories category) then (Raise ValueError, t, w)
      else
        match parse_if_str date with
        | Raise e => (Raise e, t, w)
        | Ok d =>
            let expense :=
              {| amount := PyFloat a; category := category;
                 date := d; description := description |} in
            let t' := {| expenses := expenses t ++ [expense] |} in
            match save_expenses libc t' w with
            | (Ok _, w') => (Ok true, t', w')
            | (Raise e, w') => (Raise e, t', w')
            end
        end
  end.

(** What the handlers of [add_expense] turn an exception into:
    [except ValueError] raises a [ValueError], [except Exception] a bare
    [Exception]. *)
Definition reraise (e : exn) : exn :=
  if is_ValueError e then ValueError else Exception.

Definition add_expense (libc : year_style)
    (amount category date description : pyval)
    (t : ExpenseTracker) (w : world)
  : result bool * ExpenseTracker * world :=
  match try_add_expense libc amount category date description t w with
  | (Raise e, t', w') => (Raise (reraise e), t', w')
  | done => done
  end.

(** [e.date.month] and [e.date.year]. *)
Definition date_month (e : Expense) : result Z :=
  match date e with PyDate _ m _ => Ok m | _ => Raise AttributeError end.

Definition date_year (e : Expense) : result Z :=
  match date e with PyDate y _ _ => Ok y | _ => Raise AttributeError end.

(** [e.category == filter_category] for a string filter. *)
Definition category_is (s : string) (e : Expense) : bool :=
  match category e with PyStr c => String.eqb c s | _ => false end.

(** [view_expenses]: a filter is applied when its argument is truthy
    (and, for the category, is not ["All"]); [None] is not. *)
Definition view_expenses (filter_category : option string)
    (filter_month filter_year : option Z) (t : ExpenseTracker)
  : result (list Expense) :=
  let l0 := expenses t in
  let l1 :=
    match filter_category with
    | Some c =>
        if truthy (PyStr c) && negb (String.eqb c "All")
        then filter (category_is c) l0 else l0
    | None => l0
    end in
  l2 <- match filter_month with
        | Some m =>
            if truthy (PyInt m)
            then filterM (fun e => x <- date_month e ;; Ok (x =? m)) l1
            else Ok l1
        | None => Ok l1
        end ;;
  match filter_year with
  | Some y =>
      if truthy (PyInt y)
      then filterM (fun e => x <- date_year e ;; Ok (x =? y)) l2
      else Ok l2
  | None => Ok l2
  end.

(** The dictionary [monthly_summary] returns. *)
Record summary : Type := {
  total : pyval;
  by_category : list (pyval * pyval);
  count : nat
}.

(** [by_category[k] += a] on a [defaultdict(float)], kept as the list
    of its items in insertion order. *)
Fixpoint bump (k a : pyval) (d : list (pyval * pyval))
  : result (list (pyval * pyval)) :=
  match d with
  | [] => v <- py_add (PyFloat fzero) a ;; Ok [(k, v)]
  | (k', v) :: d' =>
      if key_eq k' k
      then v' <- py_add v a ;; Ok ((k', v') :: d')
      else d'' <- bump k a d' ;; Ok ((k', v) :: d'')
  end.

Fixpoint tally (d : list (pyval * pyval)) (l : list Expense)
  : result (list (pyval * pyval)) :=
  match l with
  | [] => Ok d
  | e :: l' =>
      if hashable (category e)
      then d' <- bump (category e) (amount e) d ;; tally d' l'
      else Raise TypeError
  end.

(** Is the expense dated in month [m] of year [y]? *)
Definition in_month (m y : Z) (e : Expense) : result bool :=
  match date e with
  | PyDate y' m' _ => Ok ((m' =? m) && (y' =? y))
  | _ => Raise AttributeError
  end.

(** What [monthly_summary] takes from its surroundings: the month and
    year of the clock, and the interpreter's way of summing floats. *)
Record env : Type := {
  this_month : Z;
  this_year : Z;
  float_sum : summation
}.

(** [monthly_summary]; the clock is read for an argument that is not
    truthy ([None] or zero). *)
Definition monthly_summary (month year : option Z) (sys : env)
    (t : ExpenseTracker) : result summary :=
  let m := match month with
           | Some m => if truthy (PyInt m) then m else this_month sys
           | None => this_month sys
           end in
  let y := match year with
           | Some y => if truthy (PyInt y) then y else this_year sys
           | None => this_year sys
           end in
  monthly_expenses <- filterM (in_month m y) (expenses t) ;;
  tot <- py_sum (float_sum sys) (map amount monthly_expenses) ;;
  byc <- tally [] monthly_expenses ;;
  Ok {| total := tot; by_category := byc;
        count := List.length monthly_expenses |}.

(** ** More built-ins, for the form *)

Module PyText.

Import Py.

(** *** [int(s)] for a string

    An optionally signed run of decimal digits, with single underscores
    allowed between digits and white space around the whole; more than
    4300 digits are refused (the limit of CPython 3.11 and later).
    Anything else is a [ValueError]. *)
Definition int_of_string (s : string) : result Z :=
  let '(neg, body) := split_sign (strip (chars s)) in
  match drop_underscores None body with
  | Some (c :: l) =>
      if forallb is_digit (c :: l) && (Z.of_nat (List.length (c :: l)) <=? 4300)
      then let n := decimal (map digit_val (c :: l)) in
           Ok (if neg then - n else n)
      else Raise ValueError
  | _ => Raise ValueError
  end.

(** *** [format(x, ".2f")] *)

(** The integer nearest to [n / d], ties to the even one ([0 <= n],
    [0 < d]). *)
Definition round_half_even (n d : Z) : Z :=
  let q := n / d in
  let r := n mod d in
  if 2 * r <? d then q
  else if d <? 2 * r then q + 1
  else if Z.even q then q else q + 1.

Definition decimal_string (n : Z) : string :=
  NilZero.string_of_uint (N.to_uint (Z.to_N n)).

(** A float with two digits after the point: the exact value, rounded
    to the nearest hundredth (ties to even), with its sign. *)
Definition format_2f_float (f : float) : string :=
  let fixed (neg : bool) (q : Z) : string :=
    ((if neg then "-" else "") ++ decimal_string (q / 100) ++ "."
     ++ string_of_list_ascii (pad2 (q mod 100)))%string in
  match f with
  | S754_nan => "nan"
  | S754_infinity neg => if neg then "-inf" else "inf"
  | S754_zero neg => fixed neg 0
  | S754_finite neg m e =>
      fixed neg (if 0 <=? e then Zpos m * 2 ^ e * 100
                 else round_half_even (Zpos m * 100) (2 ^ (- e)))
  end.

(** [format(x, ".2f")]: an integer is converted to a float first; text
    has no such format; a date formats itself with [strftime], which
    copies a format without directives. *)
Definition format_2f (v : pyval) : result string :=
  match v with
  | PyFloat f => Ok (format_2f_float f)
  | PyInt n => f <- float_of_int n ;; Ok (format_2f_float f)
  | PyBool b => f <- float_of_int (if b then 1 else 0) ;; Ok (format_2f_float f)
  | PyStr _ => Raise ValueError
  | PyDate _ _ _ => Ok ".2f"
  | PyNone | PyList _ | PyDict _ => Raise TypeError
  end.

(** *** Month names: [strftime("%B")] and [strptime(s, "%B")]

    The names are those of the C locale, which the program never
    changes. *)
Definition month_labels : list string :=
  ["January"; "February"; "March"; "April"; "May"; "June"; "July";
   "August"; "September"; "October"; "November"; "December"].

(** [datetime.date(2023, i, 1).strftime("%B")]. *)
Definition strftime_B (i : Z) : string :=
  nth (Z.to_nat (i - 1)) month_labels "".

Definition lower_string (s : string) : string :=
  string_of_list_ascii (map lower (chars s)).

(** The names [strptime] looks for, in lower case. *)
Definition month_names : list string := map lower_string month_labels.

(** [sorted(names, key=len, reverse=True)]: longest first, names of
    equal length in their original order. *)
Fixpoint insert_by_length (x : string) (l : list string) : list string :=
  match l with
  | [] => [x]
  | y :: l' =>
      if (String.length y <=? String.length x)%nat
      then x :: l else y :: insert_by_length x l'
  end.

Definition longest_first (l : list string) : list string :=
  fold_right insert_by_length [] l.

Fixpoint strip_prefix (p l : list ascii) : option (list ascii) :=
  match p, l with
  | [], _ => Some l
  | a :: p', b :: l' => if Ascii.eqb a b then strip_prefix p' l' else None
  | _ :: _, [] => None
  end.

Fixpoint index_of (x : string) (l : list string) : Z :=
  match l with
  | [] => 0
  | y :: l' => if String.eqb x y then 0 else 1 + index_of x l'
  end.

(** [datetime.datetime.strptime(s, "%B").month]: the pattern is the
    alternation of the names, longest first, matched without regard to
    case; data left after the match is a [ValueError]. *)
Definition strptime_B (s : string) : result Z :=
  let text := map lower (chars s) in
  match first_match
          (fun name =>
             match strip_prefix (chars name) text with
             | Some rest => Some (name, rest)
             | None => None
             end)
          (longest_first month_names) with
  | Some (name, []) => Ok (1 + index_of name month_names)
  | _ => Raise ValueError
  end.

End PyText.

Import PyText.

(** ** class [ExpenseTrackerApp]: the list of expenses and its filters

    Of the form, the three filter boxes and the table are modelled,
    with the methods that only touch them; a table row holds the four
    values [tree.insert] is given. *)

Record row : Type := {
  row_date : string;
  row_category : pyval;
  row_amount : string;
  row_description : pyval
}.

Record ExpenseTrackerApp : Type := {
  tracker : ExpenseTracker;
  filter_category_var : string;
  filter_month_var : string;
  filter_year_var : string;
  tree : list row
}.

(** The values of one row, evaluated from left to right:
    [expense.date.strftime("%Y-%m-%d")], [expense.category],
    [f"${expense.amount:.2f}"], [expense.description]. *)
Definition row_values (libc : year_style) (e : Expense) : result row :=
  match date e with
  | PyDate y m d =>
      a <- format_2f (amount e) ;;
      Ok {| row_date := strftime libc y m d; row_category := category e;
            row_amount := ("$" ++ a)%string; row_description := description e |}
  | _ => Raise AttributeError
  end.

(** [for expense in expenses: self.tree.insert(...)]: the rows are
    added one by one, so those before a failure stay. *)
Fixpoint insert_rows (libc : year_style) (l : list Expense) (rows : list row)
  : result unit * list row :=
  match l with
  | [] => (Ok tt, rows)
  | e :: l' =>
      match row_values libc e with
      | Ok r => insert_rows libc l' (rows ++ [r])
      | Raise x => (Raise x, rows)
      end
  end.

(** [refresh_expenses_list]: the table is emptied, the three boxes are
    read and translated, the ledger is queried and the rows are added. *)
Definition refresh_expenses_list (libc : year_style) (app : ExpenseTrackerApp)
  : result unit * ExpenseTrackerApp :=
  let show rows :=
    {| tracker := tracker app;
       filter_category_var := filter_category_var app;
       filter_month_var := filter_month_var app;
       filter_year_var := filter_year_var app;
       tree := rows |} in
  let category_filter :=
    if String.eqb (filter_category_var app) "All"
    then None else Some (filter_category_var app) in
  match
    month_filter <-
      (if negb (String.eqb (filter_month_var app) "All")
       then m <- strptime_B (filter_month_var app) ;; Ok (Some m)
       else Ok None) ;;
    year_filter <-
      (if negb (String.eqb (filter_year_var app) "All")
       then y <- int_of_string (filter_year_var app) ;; Ok (Some y)
       else Ok None) ;;
    view_expenses category_filter month_filter year_filter (tracker app)
  with
  | Raise x => (Raise x, show [])
  | Ok expenses =>
      let '(r, rows) := insert_rows libc expenses [] in (r, show rows)
  end.

(** [apply_filters]: the event is not looked at. *)
Definition apply_filters (libc : year_style) (app : ExpenseTrackerApp)
  : result unit * ExpenseTrackerApp :=
  refresh_expenses_list libc app.

(** [clear_filters]: the three boxes go back to ["All"], then the table
    is refreshed. *)
Definition clear_filters (libc : year_style) (app : ExpenseTrackerApp)
  : result unit * ExpenseTrackerApp :=
  refresh_expenses_list libc
    {| tracker := tracker app;
       filter_category_var := "All";
       filter_month_var := "All";
       filter_year_var := "All";
       tree := tree app |}.

(** * Vocabulary of the properties *)

Definition is_date (v : pyval) : bool :=
  match v with PyDate y m d => valid_date y m d | _ => false end.

(** A record [save_expenses] can write: it carries a date, and its
    other fields are JSON values. *)
Definition storable (e : Expense) : bool :=
  is_date (date e) && serialisable (amount e)
  && serialisable (category e) && serialisable (description e).

(** The object [to_dict] builds for a record dated [y-m-d]. *)
Definition record_dict (libc : year_style) (e : Expense) : pyval :=
  match date e with
  | PyDate y m d =>
      PyDict [("amount", amount e); ("category", category e);
              ("date", PyStr (strftime libc y m d));
              ("description", description e)]
  | _ => PyNone
  end.

(** A record as the data model describes it: a positive number, a
    string, a calendar date, a string. *)
Definition positive_number (v : pyval) : bool :=
  match v with
  | PyInt n => 0 <? n
  | PyFloat f => fltb fzero f
  | _ => false
  end.

Definition is_str (v : pyval) : bool :=
  match v with PyStr _ => true | _ => false end.

Definition valid_record (e : Expense) : bool :=
  positive_number (amount e) && is_str (category e)
  && is_date (date e) && is_str (description e).

(** The amounts [float] examines without a [TypeError] or an
    [OverflowError]: text, floats, booleans, and the integers a float
    can hold. *)
Definition amount_like (v : pyval) : bool :=
  match v with
  | PyStr _ | PyFloat _ | PyBool _ => true
  | PyInt n => match float_of_int n with Ok _ => true | Raise _ => false end
  | _ => false
  end.

(** A path with no file yet, and a tracker with no record. *)
Definition fresh_world : world := {| disk := None; media := Writable |}.

Definition empty_tracker : ExpenseTracker := {| expenses := [] |}.

(** The float a numeral denotes. *)
Definition flt (s : string) : float :=
  match float_of_string s with Ok f => f | Raise _ => S754_nan end.

Definition mk (a : string) (c : string) (y m d : Z) (ds : string) : Expense :=
  {| amount := PyFloat (flt a); category := PyStr c;
     date := PyDate y m d; description := PyStr ds |}.

(** The ledger of the specification's scenario. *)
Definition march_ledger : ExpenseTracker :=
  {| expenses := [mk "50.00" "Food" 2024 3 5 "lunch";
                  mk "20.00" "Food" 2024 3 10 "";
                  mk "100.00" "Rent/Mortgage" 2024 3 1 ""] |}.

(** *** Queries *)

Definition has_date (e : Expense) : bool :=
  match date e with PyDate _ _ _ => true | _ => false end.

Definition month_of (e : Expense) : Z :=
  match date e with PyDate _ m _ => m | _ => 0 end.

Definition year_of (e : Expense) : Z :=
  match date e with PyDate y _ _ => y | _ => 0 end.

(** The conjunction the specification gives for [query].  A dimension
    carries no filter when its argument is absent or is a sentinel: the
    text ["All"] or the empty text for the category, zero for the month
    and the year (no month and no year is numbered zero). *)
Definition want_category (fc : option string) (e : Expense) : bool :=
  match fc with
  | None => true
  | Some c =>
      if String.eqb c "" || String.eqb c "All" then true else category_is c e
  end.

Definition want_month (fm : option Z) (e : Expense) : bool :=
  match fm with
  | None => true
  | Some m => if m =? 0 then true else month_of e =? m
  end.

Definition want_year (fy : option Z) (e : Expense) : bool :=
  match fy with
  | None => true
  | Some y => if y =? 0 then true else year_of e =? y
  end.

Definition selected (fc : option string) (fm fy : option Z) (e : Expense) : bool :=
  want_category fc e && want_month fm e && want_year fy e.

(** The same conjunction read to the letter: only an absent argument,
    or the text ["All"] for the category, lifts a constraint. *)
Definition stated_selection (fc : option string) (fm fy : option Z)
    (e : Expense) : bool :=
  match fc with
  | None => true
  | Some c => String.eqb c "All" || category_is c e
  end
  && match fm with None => true | Some m => month_of e =? m end
  && match fy with None => true | Some y => year_of e =? y end.

(** *** The monthly summary *)

(** A record as [add_expense] creates it: a float amount, a string
    category, a date. *)
Definition typed_record (e : Expense) : bool :=
  match amount e, category e, date e with
  | PyFloat _, PyStr _, PyDate _ _ _ => true
  | _, _, _ => false
  end.

(** The records whose date has month [m] and year [y]. *)
Definition dated (m y : Z) (e : Expense) : bool :=
  match date e with
  | PyDate y' m' _ => (m' =? m) && (y' =? y)
  | _ => false
  end.

Definition amount_f (e : Expense) : float :=
  match amount e with PyFloat f => f | _ => fzero end.

Definition category_s (e : Expense) : string :=
  match category e with PyStr c => c | _ => "" end.

(** The floating-point sum of a list, added from left to right to the
    float zero. *)
Definition fsum (l : list float) : float := fold_left fadd l fzero.

(** The compensated sum of a list: the first float is added to zero,
    the others enter by [neumaier_step], the compensation joins last. *)
Definition csum (l : list float) : float :=
  match l with
  | [] => fzero
  | a :: l' => flush (fold_left neumaier_step l' (fadd fzero a, fzero))
  end.

(** The sum of the amounts of [l] as [sum] computes it: the integer [0]
    when there is none. *)
Definition float_total (how : summation) (l : list Expense) : pyval :=
  match l with
  | [] => PyInt 0
  | _ => PyFloat (match how with
                  | Plain => fsum (map amount_f l)
                  | Compensated => csum (map amount_f l)
                  end)
  end.

(** A clock for the examples. *)
Definition at_2026 (how : summation) : env :=
  {| this_month := 11; this_year := 2026; float_sum := how |}.

(** The categories of a list, each once, in order of first appearance. *)
Definition add_key (ks : list string) (c : string) : list string :=
  if existsb (String.eqb c) ks then ks else ks ++ [c].

Definition keys_of (l : list string) : list string := fold_left add_key l [].

Definition categories_of (l : list Expense) : list string :=
  keys_of (map category_s l).

(** The records of one category, and the entry the summary has for it. *)
Definition group (l : list Expense) (c : string) : list Expense :=
  filter (category_is c) l.

Definition entry (l : list Expense) (c : string) : pyval * pyval :=
  (PyStr c, PyFloat (fsum (map amount_f (group l c)))).

Definition groups (l : list Expense) : list (pyval * pyval) :=
  map (entry l) (categories_of l).

(** Five March expenses whose amounts do not add up exactly. *)
Definition rounding_ledger : ExpenseTracker :=
  {| expenses := [mk "1" "Other" 2024 3 1 ""; mk "1e16" "Food" 2024 3 2 "";
                  mk "1" "Other" 2024 3 3 ""; mk "1" "Food" 2024 3 4 "";
                  mk "1" "Food" 2024 3 5 ""] |}.

(** Expenses entered as text, one [add_expense] call each, in order. *)
Definition enter (libc : year_style)
    (inputs : list (string * string * string * string))
    (t : ExpenseTracker) (w : world) : ExpenseTracker * world :=
  fold_left
    (fun '(t, w) '(a, c, d, ds) =>
       let '(_, t', w') :=
         add_expense libc (PyStr a) (PyStr c) (PyStr d) (PyStr ds) t w in
       (t', w'))
    inputs (t, w).

(** *** Files *)

(** [item.get(k)] on a parsed object; nothing on any other value. *)
Definition field (k : string) (item : pyval) : option pyval :=
  match item with PyDict kv => lookup k kv | _ => None end.

(** A parsed object that supplies an amount, a category and a date
    written as YYYY-MM-DD text; nothing is asked of the amount or the
    category, and the description may be missing. *)
Definition record_object (item : pyval) : bool :=
  match field "date" item, field "amount" item, field "category" item with
  | Some (PyStr s), Some _, Some _ =>
      match strptime s with Ok _ => true | Raise _ => false end
  | _, _, _ => false
  end.

(** The record [item] stands for. *)
Definition loaded_from (item : pyval) (e : Expense) : Prop :=
  field "amount" item = Some (amount e)
  /\ field "category" item = Some (category e)
  /\ (exists s, field "date" item = Some (PyStr s) /\ strptime s = Ok (date e))
  /\ description e
     = match field "description" item with Some v => v | None => PyStr "" end.

(** A file written by hand or by another version of the program. *)
Definition foreign_file : world :=
  {| disk := Some (Json (PyList
       [PyDict [("amount", PyInt 12); ("category", PyStr "Groceries");
                ("date", PyStr "2023-11-02"); ("description", PyStr "market")];
        PyDict [("date", PyStr "2023-11-03"); ("category", PyStr "Food");
                ("amount", PyInt 0)];
        PyDict [("amount", PyFloat (flt "-5")); ("category", PyStr "Other");
                ("date", PyStr "2023-11-04")];
        PyDict [("amount", PyStr "abc"); ("category", PyStr "Other");
                ("date", PyStr "2023-11-05"); ("description", PyStr "")]]));
     media := Writable |}.

(** *** Ledgers and files in general *)

(** What [save_expenses] needs of a record: a date to format, and
    fields [json.dump] can write. *)
Definition writable_record (e : Expense) : bool :=
  has_date e && serialisable (amount e)
  && serialisable (category e) && serialisable (description e).

(** A record as the form's text fields produce it: a float amount that
    did not compare [<= 0], one of the fixed categories, a calendar
    date, a text description. *)
Definition entered (e : Expense) : bool :=
  match amount e, category e, description e with
  | PyFloat a, PyStr _, PyStr _ =>
      negb (fleb a fzero) && in_categories (category e) && is_date (date e)
  | _, _, _ => false
  end.

(** The month, or the year, a summary is about: the argument when it
    is given and is not zero, what the clock shows otherwise. *)
Definition summarised (arg : option Z) (now : Z) : Z :=
  match arg with
  | Some n => if n =? 0 then now else n
  | None => now
  end.

(** Is a month or year filter in force? *)
Definition active (f : option Z) : bool :=
  match f with Some n => negb (n =? 0) | None => false end.

(** The values [+] accepts next to a number. *)
Definition is_number (v : pyval) : bool :=
  match v with PyBool _ | PyInt _ | PyFloat _ => true | _ => false end.

(** A ledger with a record [add_expense] was handed without a date. *)
Definition undated_ledger : ExpenseTracker :=
  {| expenses := [mk "50.00" "Food" 2024 3 5 "lunch";
                  {| amount := PyFloat (flt "7"); category := PyStr "Other";
                     date := PyNone; description := PyStr "" |}] |}.

(** The running total of a sum is an [int] or a [float]. *)
Definition running (v : pyval) : bool :=
  match v with PyInt _ | PyFloat _ => true | _ => false end.

Definition type_or_overflow (r : result pyval) : Prop :=
  r = Raise TypeError \/ r = Raise OverflowError.

(** The ledger the tracker has after starting on [foreign_file]. *)
Definition foreign_ledger : ExpenseTracker :=
  match init foreign_file with Ok t => t | Raise _ => empty_tracker end.

(** *** The list of expenses *)

(** A record the table can show: it has a date, and an amount
    [format] accepts. *)
Definition renders (libc : year_style) (e : Expense) : bool :=
  match row_values libc e with Ok _ => true | Raise _ => false end.

(** The row that shows a record. *)
Definition shows (libc : year_style) (e : Expense) (r : row) : Prop :=
  exists y m d a,
    date e = PyDate y m d /\ row_date r = strftime libc y m d
    /\ format_2f (amount e) = Ok a /\ row_amount r = ("$" ++ a)%string
    /\ row_category r = category e /\ row_description r = description e.

(** What a choice in the month box and in the year box stands for. *)
Definition chosen_month (v : string) (fm : option Z) : Prop :=
  (v = "All" /\ fm = None)
  \/ exists i, 1 <= i <= 12 /\ v = strftime_B i /\ fm = Some i.

Definition chosen_year (v : string) (fy : option Z) : Prop :=
  (v = "All" /\ fy = None)
  \/ exists y, int_of_string v = Ok y /\ fy = Some y.

(** The form on the March ledger, showing nothing yet. *)
Definition march_app (c m y : string) : ExpenseTrackerApp :=
  {| tracker := march_ledger; filter_category_var := c;
     filter_month_var := m; filter_year_var := y; tree := [] |}.

(** *** The year on the file *)

(** A date whose year [strftime] writes on four digits: every date where
    the C library pads, a date from the year 1000 on where it does not. *)
Definition four_digit_year (libc : year_style) (v : pyval) : bool :=
  match libc, v with
  | Unpadded, PyDate y _ _ => 1000 <=? y
  | _, _ => true
  end.

(** One valid record dated in the year 999. *)
Definition old_ledger : ExpenseTracker :=
  {| expenses := [mk "5" "Food" 999 1 1 ""] |}.

(** * Properties *)

(** ** Dates survive [strftime] followed by [strptime] *)

Section DateRoundTrip.

Lemma digit_char_spec (n : Z) :
  is_digit (digit_char n) = true /\ digit_val (digit_char n) = n mod 10.
Proof.
  unfold digit_char.
  assert (H : 0 <= n mod 10 < 10) by (apply Z.mod_pos_bound; lia).
  remember (n mod 10) as k eqn:E. clear E.
  assert (C : k = 0 \/ k = 1 \/ k = 2 \/ k = 3 \/ k = 4 \/ k = 5 \/ k = 6
              \/ k = 7 \/ k = 8 \/ k = 9) by lia.
  repeat (destruct C as [C | C]; [subst k; split; reflexivity |]).
  subst k; split; reflexivity.
Qed.

Lemma match_year_pad4 (y : Z) (r : list ascii) :
  0 <= y <= 9999 -> match_year (pad4 y ++ r) = Some (y, r).
Proof.
  intros Hy. unfold pad4, match_year. cbn [app].
  destruct (digit_char_spec (y / 1000)) as [-> ->].
  destruct (digit_char_spec (y / 100)) as [-> ->].
  destruct (digit_char_spec (y / 10)) as [-> ->].
  destruct (digit_char_spec y) as [-> ->].
  cbn [andb decimal fold_left]. do 2 f_equal.
  Z.div_mod_to_equations. lia.
Qed.

(** Enumerates a bounded positive integer variable. *)
Ltac enumerate m :=
  destruct m as [| p | p]; try lia;
  repeat (destruct p as [p | p |]; try lia).

Lemma match_month_pad2 (m : Z) (r : list ascii) :
  1 <= m <= 12 -> exists tl, match_month (pad2 m ++ r) = (m, r) :: tl.
Proof.
  intros Hm. enumerate m; eexists; reflexivity.
Qed.

Lemma match_day_pad2 (d : Z) :
  1 <= d <= 31 -> exists tl, match_day (pad2 d) = (d, []) :: tl.
Proof.
  intros Hd. enumerate d; eexists; reflexivity.
Qed.

Lemma valid_date_bounds (y m d : Z) :
  valid_date y m d = true -> 1 <= y <= 9999 /\ 1 <= m <= 12 /\ 1 <= d <= 31.
Proof.
  unfold valid_date, days_in_month. intros H.
  repeat (apply andb_prop in H; destruct H as [H ?]).
  repeat match goal with
         | H : (_ <=? _) = true |- _ => apply Z.leb_le in H
         end.
  destruct (m =? 2); [destruct (is_leap y) |];
    try destruct ((m =? 4) || (m =? 6) || (m =? 9) || (m =? 11))%bool; lia.
Qed.

Lemma match_format_strftime (y m d : Z) :
  valid_date y m d = true ->
  match_format (pad4 y ++ "-"%char :: pad2 m ++ "-"%char :: pad2 d)
  = Some (y, m, d, []).
Proof.
  intros V. destruct (valid_date_bounds _ _ _ V) as (Hy & Hm & Hd).
  unfold match_format. rewrite match_year_pad4 by lia.
  cbn [expect]. rewrite Ascii.eqb_refl.
  destruct (match_month_pad2 m ("-"%char :: pad2 d) Hm) as [tl ->].
  cbn [first_match expect]. rewrite Ascii.eqb_refl.
  destruct (match_day_pad2 d Hd) as [tl' ->]. reflexivity.
Qed.

Lemma year_digits_pad4 (libc : year_style) (y m d : Z) :
  four_digit_year libc (PyDate y m d) = true -> year_digits libc y = pad4 y.
Proof.
  destruct libc; [reflexivity |]. cbn [four_digit_year year_digits].
  intros H%Z.leb_le. unfold plain_year.
  destruct (Z.ltb_spec y 10); [lia |]. destruct (Z.ltb_spec y 100); [lia |].
  destruct (Z.ltb_spec y 1000); [lia |]. reflexivity.
Qed.

Lemma strptime_strftime {libc : year_style} (y m d : Z) :
  valid_date y m d = true -> four_digit_year libc (PyDate y m d) = true ->
  strptime (strftime libc y m d) = Ok (PyDate y m d).
Proof.
  intros V F. unfold strptime, strftime, chars.
  rewrite list_ascii_of_string_of_list_ascii.
  rewrite (year_digits_pad4 libc y m d F).
  rewrite match_format_strftime by exact V. now rewrite V.
Qed.

(** [%Y] reads exactly four digits: a year written on fewer is followed
    too early by the dash. *)
Lemma match_year_plain (y m d : Z) :
  1 <= m <= 12 -> y < 1000 ->
  match_year (plain_year y ++ "-"%char :: pad2 m ++ "-"%char :: pad2 d) = None.
Proof.
  intros Hm Hy. unfold plain_year, pad2.
  destruct (Z.ltb_spec y 10); [| destruct (Z.ltb_spec y 100);
    [| destruct (Z.ltb_spec y 1000); [| lia]]];
    cbn [app match_year];
    repeat match goal with
           | |- context [is_digit (digit_char ?n)] =>
               rewrite (proj1 (digit_char_spec n))
           end; reflexivity.
Qed.

(** Where the C library does not pad the year, a date before the year
    1000 is written in a form [strptime] rejects. *)
Lemma strptime_strftime_unpadded (y m d : Z) :
  valid_date y m d = true -> four_digit_year Unpadded (PyDate y m d) = false ->
  strptime (strftime Unpadded y m d) = Raise ValueError.
Proof.
  intros V F. destruct (valid_date_bounds _ _ _ V) as (Hy & Hm & Hd).
  cbn [four_digit_year] in F. apply Z.leb_gt in F.
  unfold strptime, strftime, chars, year_digits.
  rewrite list_ascii_of_string_of_list_ascii.
  unfold match_format. now rewrite match_year_plain.
Qed.

(** The leading zeros matter: the year 999 is read from ["0999"] only,
    and written ["999"] where the C library does not pad. *)
Remark strptime_needs_four_digits :
  strftime Padded 999 1 1 = "0999-01-01"
  /\ strftime Unpadded 999 1 1 = "999-01-01"
  /\ strptime "0999-01-01" = Ok (PyDate 999 1 1)
  /\ strptime "999-01-01" = Raise ValueError.
Proof. repeat split; vm_compute; reflexivity. Qed.

End DateRoundTrip.

(** ** Saving and loading *)

Arguments strptime : simpl never.
Arguments strftime : simpl never.

Lemma mapM_to_dict {libc : year_style} (es : list Expense) :
  forallb storable es = true ->
  exists ds, mapM (to_dict libc) es = Ok ds /\ map PyDict ds = map (record_dict libc) es.
Proof.
  induction es as [| e es IH]; cbn [forallb mapM map]; intros H.
  - now exists [].
  - apply andb_prop in H as [He Hes]. destruct (IH Hes) as (ds & -> & Eds).
    unfold storable, is_date in He. unfold to_dict, record_dict.
    destruct (date e); try discriminate He.
    cbn [bind]. eexists; split; [reflexivity |]. cbn [map]. now rewrite Eds.
Qed.

Lemma serialisable_records {libc : year_style} (es : list Expense) :
  forallb storable es = true ->
  serialisable (PyList (map (record_dict libc) es)) = true.
Proof.
  cbn [serialisable]. induction es as [| e es IH]; cbn [forallb map]; intros H.
  - reflexivity.
  - apply andb_prop in H as [He Hes]. rewrite (IH Hes), andb_true_r.
    unfold storable, is_date in He. unfold record_dict.
    destruct (date e); try discriminate He.
    repeat (apply andb_prop in He; destruct He as [He ?]).
    cbn [serialisable forallb].
    repeat (apply andb_true_intro; split); auto.
Qed.

(** On a writable path, storable records are written out in order. *)
Lemma save_expenses_ok {libc : year_style} (t : ExpenseTracker) (w : world) :
  media w = Writable ->
  forallb storable (expenses t) = true ->
  save_expenses libc t w
  = (Ok tt, {| disk := Some (Json (PyList (map (record_dict libc) (expenses t))));
               media := Writable |}).
Proof.
  intros Hm Hs. unfold save_expenses, write_expenses. rewrite Hm.
  destruct (mapM_to_dict (libc := libc) _ Hs) as (ds & -> & Eds).
  rewrite Eds, (serialisable_records _ Hs). reflexivity.
Qed.

(** Whatever goes wrong in [save_expenses], it raises the bare
    [Exception]. *)
Lemma save_expenses_raises {libc : year_style}
    (t : ExpenseTracker) (w : world) (x : exn) :
  fst (save_expenses libc t w) = Raise x -> x = Exception.
Proof.
  unfold save_expenses.
  destruct (write_expenses libc t w) as [[[] | e] w']; cbn; congruence.
Qed.

Lemma from_dict_record_dict {libc : year_style} (e : Expense) :
  is_date (date e) = true -> four_digit_year libc (date e) = true ->
  from_dict (record_dict libc e) = Ok e.
Proof.
  unfold is_date, record_dict, from_dict. destruct e as [a c dt ds]; cbn.
  destruct dt; try discriminate. intros V F.
  cbv [getitem lookup String.eqb Ascii.eqb Bool.eqb bind].
  rewrite (strptime_strftime _ _ _ V F). reflexivity.
Qed.

Lemma mapM_from_dict_records {libc : year_style} (es : list Expense) :
  forallb (fun e => is_date (date e)) es = true ->
  forallb (fun e => four_digit_year libc (date e)) es = true ->
  mapM from_dict (map (record_dict libc) es) = Ok es.
Proof.
  induction es as [| e es IH]; cbn [forallb map mapM]; intros H F.
  - reflexivity.
  - apply andb_prop in H as [He Hes]. apply andb_prop in F as [Fe Fes].
    rewrite (from_dict_record_dict _ He Fe), (IH Hes Fes). reflexivity.
Qed.

(** A record whose date is written with a shorter year is not read
    back: [strptime] raises the [ValueError]. *)
Lemma from_dict_record_dict_unpadded (e : Expense) :
  is_date (date e) = true -> four_digit_year Unpadded (date e) = false ->
  from_dict (record_dict Unpadded e) = Raise ValueError.
Proof.
  unfold is_date, record_dict, from_dict. destruct e as [a c dt ds]; cbn.
  destruct dt; try discriminate. intros V F.
  cbv [getitem lookup String.eqb Ascii.eqb Bool.eqb bind].
  rewrite (strptime_strftime_unpadded _ _ _ V F). reflexivity.
Qed.

(** [mapM] raises as soon as one element does. *)
Lemma mapM_raises {A B} (f : A -> result B) (l : list A) (a : A) (x : exn) :
  In a l -> f a = Raise x -> exists x', mapM f l = Raise x'.
Proof.
  intros Ha Hx. induction l as [| b l IH]; [destruct Ha |]. cbn [mapM].
  destruct Ha as [-> | Ha].
  - rewrite Hx. cbn. eauto.
  - destruct (f b); cbn [bind]; [| eauto].
    destruct (IH Ha) as [x' ->]. cbn. eauto.
Qed.

Lemma valid_record_storable (e : Expense) :
  valid_record e = true -> storable e = true.
Proof.
  unfold valid_record, storable. destruct e as [a c dt ds]; cbn.
  intros H. repeat (apply andb_prop in H; destruct H as [H ?]).
  match goal with D : is_date dt = true |- _ => rewrite D end.
  destruct a; try discriminate; destruct c; try discriminate;
    destruct ds; try discriminate; reflexivity.
Qed.

Lemma storable_is_date (es : list Expense) :
  forallb storable es = true ->
  forallb (fun e => is_date (date e)) es = true.
Proof.
  rewrite !forallb_forall. intros H e He. specialize (H e He).
  unfold storable in H.
  repeat (apply andb_prop in H; destruct H as [H ?]). exact H.
Qed.

(** Round trip, where the file keeps the years: for every sequence of
    valid records whose dates are written with a four-digit year --
    every date where the C library pads, dates from the year 1000 on
    where it does not --, saving it to a writable path succeeds, and
    loading the file back, into any tracker, yields exactly the original
    sequence: same amount, category, date and description for each
    record, in the same order. *)
Theorem save_load_four_digit_years (libc : year_style) (es : list Expense)
    (w : world) (t0 : ExpenseTracker) :
  forallb valid_record es = true ->
  forallb (fun e => four_digit_year libc (date e)) es = true ->
  media w = Writable ->
  exists w',
    save_expenses libc {| expenses := es |} w = (Ok tt, w')
    /\ load_expenses t0 w' = (Ok tt, {| expenses := es |})
    /\ init w' = Ok {| expenses := es |}.
Proof.
  intros Hv Hy Hm.
  assert (Hs : forallb storable es = true).
  { rewrite forallb_forall in *. intros e He.
    apply valid_record_storable, Hv, He. }
  eexists. split; [apply (save_expenses_ok {| expenses := es |} w Hm Hs) |].
  unfold init, load_expenses, read_expenses. cbn [disk iterate bind expenses].
  rewrite (mapM_from_dict_records _ (storable_is_date _ Hs) Hy). auto.
Qed.

Lemma save_load_four_digit_years_witness :
  forallb valid_record (expenses march_ledger) = true
  /\ exists w',
       save_expenses Unpadded march_ledger fresh_world = (Ok tt, w')
       /\ load_expenses empty_tracker w' = (Ok tt, march_ledger)
       /\ init w' = Ok march_ledger.
Proof.
  split; [reflexivity |].
  apply (save_load_four_digit_years Unpadded (expenses march_ledger) fresh_world
           empty_tracker); reflexivity.
Defined.

(** C1.  The round trip fails where the C library writes the year
    without leading zeros: for every sequence of valid records (amount a
    positive number, category a string, date a calendar date,
    description a string) one of which is dated before the year 1000,
    saving it to a writable path succeeds, but the file then holds a
    date [strptime] rejects, so loading it back raises an [Exception],
    leaves the tracker it loads into as it was, and a tracker can no
    longer start on that file. *)
Theorem save_load_year_below_1000 (es : list Expense) (w : world)
    (t0 : ExpenseTracker) :
  forallb valid_record es = true ->
  existsb (fun e => negb (four_digit_year Unpadded (date e))) es = true ->
  media w = Writable ->
  exists w',
    save_expenses Unpadded {| expenses := es |} w = (Ok tt, w')
    /\ load_expenses t0 w' = (Raise Exception, t0)
    /\ init w' = Raise Exception.
Proof.
  intros Hv Hy Hm.
  assert (Hs : forallb storable es = true).
  { rewrite forallb_forall in *. intros e He.
    apply valid_record_storable, Hv, He. }
  apply existsb_exists in Hy as (e & He & Fe). apply negb_true_iff in Fe.
  assert (De : is_date (date e) = true).
  { pose proof (storable_is_date _ Hs) as Hd.
    rewrite forallb_forall in Hd. exact (Hd e He). }
  destruct (mapM_raises from_dict (map (record_dict Unpadded) es)
              (record_dict Unpadded e) ValueError) as [x Hx].
  { now apply in_map. }
  { exact (from_dict_record_dict_unpadded e De Fe). }
  eexists. split; [apply (save_expenses_ok {| expenses := es |} w Hm Hs) |].
  unfold init, load_expenses, read_expenses. cbn [disk iterate bind expenses].
  rewrite Hx. auto.
Qed.

Lemma save_load_year_below_1000_witness :
  forallb valid_record (expenses old_ledger) = true
  /\ exists w',
       save_expenses Unpadded old_ledger fresh_world = (Ok tt, w')
       /\ load_expenses march_ledger w' = (Raise Exception, march_ledger)
       /\ init w' = Raise Exception.
Proof.
  split; [reflexivity |].
  apply (save_load_year_below_1000 (expenses old_ledger) fresh_world
           march_ledger); reflexivity.
Defined.

(** The record of the year 999 is one the form produces: entered as
    ["0999-01-01"] it is accepted and saved.  Where the C library does
    not pad, the file then holds ["999-01-01"] and the program cannot
    start on it again; where it pads, the program starts with the
    ledger it had. *)
Remark entry_of_year_999 :
  (exists w',
      add_expense Unpadded (PyStr "5") (PyStr "Food") (PyStr "0999-01-01")
        (PyStr "") empty_tracker fresh_world = (Ok true, old_ledger, w')
      /\ disk w'
         = Some (Json (PyList [PyDict [("amount", PyFloat (flt "5"));
                                       ("category", PyStr "Food");
                                       ("date", PyStr "999-01-01");
                                       ("description", PyStr "")]]))
      /\ init w' = Raise Exception)
  /\ (exists w',
         add_expense Padded (PyStr "5") (PyStr "Food") (PyStr "0999-01-01")
           (PyStr "") empty_tracker fresh_world = (Ok true, old_ledger, w')
         /\ init w' = Ok old_ledger).
Proof.
  split; eexists; (split; [vm_compute; reflexivity |]);
    try split; vm_compute; reflexivity.
Qed.

(** ** Adding an expense *)

Lemma float_of_string_result (s : string) :
  (exists a, float_of_string s = Ok a) \/ float_of_string s = Raise ValueError.
Proof.
  unfold float_of_string.
  destruct (drop_underscores None (chars s)) as [l |]; [| now right].
  destruct (split_sign (strip l)) as [neg body].
  destruct (_ || _)%bool; [left; eauto |].
  destruct (String.eqb _ "nan"); [left; eauto |].
  destruct (parse_decimal body) as [[[m e] [| c r]] |]; eauto.
Qed.

Lemma float_of_int_result (n : Z) :
  (exists f, float_of_int n = Ok f) \/ float_of_int n = Raise OverflowError.
Proof.
  unfold float_of_int. destruct (float_of_scaled n 0); eauto.
Qed.

(** Any other amount is one [float] refuses to examine. *)
Lemma py_float_not_amount_like (v : pyval) :
  amount_like v = false ->
  py_float v = Raise TypeError \/ py_float v = Raise OverflowError.
Proof.
  destruct v as [| b | n | f | s | y m d | l | kv]; cbn [amount_like py_float];
    try discriminate; auto.
  destruct (float_of_int_result n) as [[f ->] | ->]; [discriminate | auto].
Qed.

Lemma py_float_amount_like (v : pyval) :
  amount_like v = true ->
  (exists a, py_float v = Ok a) \/ py_float v = Raise ValueError.
Proof.
  destruct v as [| b | n | f | s | y m d | l | kv]; cbn [amount_like py_float];
    try discriminate.
  - intros _. left. destruct b; eexists; reflexivity.
  - destruct (float_of_int n); [eauto | discriminate].
  - eauto.
  - intros _. apply float_of_string_result.
Qed.

Lemma strptime_result (s : string) :
  (exists d, strptime s = Ok d /\ is_date d = true)
  \/ strptime s = Raise ValueError.
Proof.
  unfold strptime.
  destruct (match_format (chars s)) as [[[[y m] d] [| c r]] |]; auto.
  destruct (valid_date y m d) eqn:V; auto.
  left. eexists. split; [reflexivity | exact V].
Qed.

Lemma fltb_not_fleb (a : float) : fltb fzero a = true -> fleb a fzero = false.
Proof.
  destruct a as [s | s | | s m e]; try destruct s; cbn; congruence.
Qed.

(** A category outside the fixed set is refused whatever else is
    supplied with it. *)
Lemma add_expense_unknown_category {libc : year_style} (amt cat dt desc : pyval)
    (t : ExpenseTracker) (w : world) :
  amount_like amt = true ->
  in_categories cat = false ->
  add_expense libc amt cat dt desc t w = (Raise ValueError, t, w).
Proof.
  intros Hty Hc. unfold add_expense, try_add_expense.
  destruct (py_float_amount_like _ Hty) as [[a ->] | ->]; [| reflexivity].
  destruct (fleb a fzero); [reflexivity |]. now rewrite Hc.
Qed.

(** An amount [float] cannot examine at all -- [None], a list -- or an
    integer beyond the floats fails with [TypeError] or [OverflowError],
    which the second handler reports as a bare [Exception]; the ledger
    and the file are untouched all the same. *)
Remark add_expense_unconvertible {libc : year_style} (amt cat dt desc : pyval)
    (t : ExpenseTracker) (w : world) :
  py_float amt = Raise TypeError \/ py_float amt = Raise OverflowError ->
  add_expense libc amt cat dt desc t w = (Raise Exception, t, w).
Proof.
  intros [E | E]; unfold add_expense, try_add_expense; now rewrite E.
Qed.

(** C2, as stated, fails on an amount that is no number at all: with
    the amount [None] -- and a category outside the fixed set, and a
    date that does not parse -- [add_expense] raises the bare
    [Exception] of its second handler, not the [ValueError]; the ledger
    and the file are as they were. *)
Lemma add_expense_amount_none :
  (forall a, py_float PyNone <> Ok a)
  /\ in_categories (PyStr "Groceries") = false
  /\ (forall d, strptime "05/03/2024" <> Ok d)
  /\ add_expense Unpadded PyNone (PyStr "Groceries") (PyStr "05/03/2024")
       (PyStr "") march_ledger fresh_world
     = (Raise Exception, march_ledger, fresh_world)
  /\ Exception <> ValueError.
Proof.
  repeat split; try discriminate; vm_compute; reflexivity.
Qed.

(** C2, amended.  When the amount is text, a float, a boolean or an
    integer a float can hold: whenever [float] rejects it or it is
    numerically [<= 0], or the category is not one of the fixed
    categories, or the date is text that does not parse as YYYY-MM-DD,
    [add_expense] raises [ValueError] and leaves both the ledger and
    the file exactly as they were: nothing is appended, nothing saved.
    With any other amount -- [None], a list, a dictionary, a date, an
    integer beyond the floats -- [add_expense] raises the bare
    [Exception], whatever the category and the date, and leaves the
    ledger and the file as they were as well. *)
Theorem add_expense_rejects (libc : year_style)
    (amount category date description : pyval)
    (t : ExpenseTracker) (w : world) :
  (amount_like amount = true ->
   (exists x, py_float amount = Raise x)
   \/ (exists a, py_float amount = Ok a /\ fleb a fzero = true)
   \/ in_categories category = false
   \/ (exists s, date = PyStr s /\ forall d, strptime s <> Ok d) ->
   add_expense libc amount category date description t w
   = (Raise ValueError, t, w))
  /\ (amount_like amount = false ->
      add_expense libc amount category date description t w
      = (Raise Exception, t, w)).
Proof.
  split.
  - intros Hty H. unfold add_expense, try_add_expense.
    destruct (py_float_amount_like _ Hty) as [[a Ea] | Ea]; rewrite Ea;
      [| reflexivity].
    destruct (fleb a fzero) eqn:Ele; [reflexivity |].
    destruct (in_categories category) eqn:Ecat; [| reflexivity].
    destruct H as [[x Hx] | [(a' & Ha' & Hle) | [Hc | (s & -> & Hs)]]];
      try congruence.
    cbn [negb parse_if_str].
    destruct (strptime_result s) as [(d & Ed & _) | ->]; [| reflexivity].
    now destruct (Hs d).
  - intros Hty. apply add_expense_unconvertible.
    now apply py_float_not_amount_like.
Qed.

Lemma add_expense_rejects_witness :
  amount_like (PyStr "-5") = true
  /\ add_expense Unpadded (PyStr "-5") (PyStr "Food") (PyStr "2024-03-05")
       (PyStr "") march_ledger fresh_world
     = (Raise ValueError, march_ledger, fresh_world).
Proof.
  split; [reflexivity |].
  apply (proj1 (add_expense_rejects Unpadded _ _ _ _ _ _)); [reflexivity |].
  right; left. eexists. split; vm_compute; reflexivity.
Defined.

(** Past the validation, [add_expense] appends the record and then
    saves; the outcome of the save decides the result, not the ledger. *)
Lemma add_expense_accepted {libc : year_style}
    (amount category date description : pyval)
    (a : float) (d : pyval) (t : ExpenseTracker) (w : world) :
  py_float amount = Ok a ->
  fleb a fzero = false ->
  in_categories category = true ->
  parse_if_str date = Ok d ->
  let t' := {| expenses := expenses t
                 ++ [{| amount := PyFloat a; category := category;
                        date := d; description := description |}] |} in
  add_expense libc amount category date description t w
  = (match fst (save_expenses libc t' w) with
     | Ok _ => Ok true
     | Raise e => Raise (reraise e)
     end, t', snd (save_expenses libc t' w)).
Proof.
  intros Ea Ele Ec Ed t'. unfold add_expense, try_add_expense.
  rewrite Ea, Ele, Ec, Ed. cbn [negb]. fold t'.
  now destruct (save_expenses libc t' w) as [[[] | e] w'].
Qed.

(** The amount [add_expense] stores is a float that did not compare
    [<= 0]: it is greater than zero, or it is not a number. *)
Lemma add_expense_stored_amount {libc : year_style} (amt cat dt desc : pyval)
    (t t' : ExpenseTracker) (w w' : world) (r : result bool) :
  add_expense libc amt cat dt desc t w = (r, t', w') ->
  expenses t' = expenses t
  \/ exists e, expenses t' = expenses t ++ [e]
       /\ exists a, amount e = PyFloat a /\ (fltb fzero a = true \/ a = S754_nan).
Proof.
  unfold add_expense, try_add_expense.
  destruct (py_float amt) as [a |]; [| intros [= _ <- _]; now left].
  destruct (fleb a fzero) eqn:Ele; [intros [= _ <- _]; now left |].
  destruct (negb _); [intros [= _ <- _]; now left |].
  destruct (parse_if_str dt) as [d |]; [| intros [= _ <- _]; now left].
  intros H. right.
  assert (E : t' = {| expenses := expenses t
                        ++ [{| amount := PyFloat a; category := cat;
                               date := d; description := desc |}] |}).
  { destruct (save_expenses libc _ w) as [[[] | e] w'']; now injection H as _ <- _. }
  subst t'. eexists. split; [reflexivity |]. exists a. split; [reflexivity |].
  destruct a as [s | s | | s m e]; try destruct s; cbn in *; auto; discriminate.
Qed.

(** C5.  The guard [amount <= 0] lets a not-a-number through: with the
    amount text [nan] and otherwise valid input, [add_expense] returns
    [True] and stores (and saves) a record whose amount is NaN, which is
    not greater than zero. *)
Theorem add_expense_stores_nan :
  exists w',
    add_expense Unpadded (PyStr "nan") (PyStr "Food") (PyStr "2024-03-05") (PyStr "")
      empty_tracker fresh_world
    = (Ok true,
       {| expenses := [{| amount := PyFloat S754_nan; category := PyStr "Food";
                          date := PyDate 2024 3 5; description := PyStr "" |}] |},
       w')
    /\ fltb fzero S754_nan = false.
Proof.
  eexists. split; vm_compute; reflexivity.
Qed.

(** C6 as stated fails: the value [add_expense] returns is the flag
    [True] whatever record was created -- two different valid inputs
    give the same return value and different records. *)
Lemma add_expense_returns_flag :
  let '(r1, t1, _) :=
    add_expense Unpadded (PyStr "50.00") (PyStr "Food") (PyStr "2024-03-05")
      (PyStr "lunch") empty_tracker fresh_world in
  let '(r2, t2, _) :=
    add_expense Unpadded (PyStr "100.00") (PyStr "Rent/Mortgage") (PyStr "2024-03-01")
      (PyStr "") empty_tracker fresh_world in
  r1 = Ok true /\ r2 = Ok true /\ expenses t1 <> expenses t2.
Proof.
  vm_compute. repeat split; discriminate.
Qed.

(** C6, amended.  For every valid input (amount converting to a float
    greater than zero, category in the fixed set, date a calendar date
    or text that parses as one) [add_expense] appends one record -- the
    converted amount, the category, the date, the description -- at the
    end of the ledger, then saves.  When the path is writable and the
    records can be written it returns [True] (the flag, not the
    record) and the file holds the whole ledger; otherwise it raises
    the bare [Exception].  Either way a following [view_expenses] with
    no filter returns the old records followed by the new one, once. *)
Theorem add_expense_appends (libc : year_style)
    (amount category date description : pyval)
    (a : float) (d : pyval) (t : ExpenseTracker) (w : world) :
  py_float amount = Ok a ->
  fltb fzero a = true ->
  in_categories category = true ->
  parse_if_str date = Ok d ->
  is_date d = true ->
  let new := {| amount := PyFloat a; category := category;
                date := d; description := description |} in
  let t' := {| expenses := expenses t ++ [new] |} in
  exists r w',
    add_expense libc amount category date description t w = (r, t', w')
    /\ (media w = Writable ->
        forallb storable (expenses t') = true ->
        r = Ok true
        /\ disk w' = Some (Json (PyList (map (record_dict libc) (expenses t')))))
    /\ (r = Ok true \/ r = Raise Exception)
    /\ view_expenses None None None t' = Ok (expenses t ++ [new])
    /\ List.length (expenses t') = S (List.length (expenses t)).
Proof.
  intros Ea Epos Ec Ed _ new t'.
  pose proof (add_expense_accepted (libc := libc) amount category date description a d t w
                Ea (fltb_not_fleb _ Epos) Ec Ed) as H.
  fold new in H. fold t' in H. rewrite H. do 2 eexists.
  split; [reflexivity |]. repeat split.
  - rewrite (save_expenses_ok t' w) by assumption. reflexivity.
  - rewrite (save_expenses_ok t' w) by assumption. reflexivity.
  - destruct (fst (save_expenses libc t' w)) eqn:E; [now left |].
    apply save_expenses_raises in E. subst. now right.
  - unfold t'. cbn [expenses]. rewrite length_app. cbn. lia.
Qed.

Lemma add_expense_appends_witness :
  exists r w',
    add_expense Unpadded (PyStr "12.34") (PyStr "Shopping") (PyStr "2024-04-01")
      (PyStr "socks") march_ledger fresh_world
    = (r, {| expenses := expenses march_ledger
               ++ [mk "12.34" "Shopping" 2024 4 1 "socks"] |}, w')
    /\ r = Ok true.
Proof.
  destruct (add_expense_appends Unpadded (PyStr "12.34") (PyStr "Shopping")
              (PyStr "2024-04-01") (PyStr "socks") (flt "12.34")
              (PyDate 2024 4 1) march_ledger fresh_world)
    as (r & w' & E & Hok & _); try (vm_compute; reflexivity).
  exists r, w'. split; [exact E |].
  apply Hok; vm_compute; reflexivity.
Defined.



(** ** Queries *)

Lemma filterM_total {A} (p : A -> result bool) (q : A -> bool) (l : list A) :
  (forall a, In a l -> p a = Ok (q a)) -> filterM p l = Ok (filter q l).
Proof.
  induction l as [| a l IH]; cbn [filterM filter]; intros H; [reflexivity |].
  rewrite (H a (or_introl eq_refl)), IH by (intros; apply H; now right).
  reflexivity.
Qed.

Lemma filter_all {A} (l : list A) : filter (fun _ => true) l = l.
Proof. induction l; cbn; congruence. Qed.

Lemma filter_filter {A} (p q : A -> bool) (l : list A) :
  filter p (filter q l) = filter (fun a => q a && p a) l.
Proof.
  induction l as [| a l IH]; cbn [filter]; [reflexivity |].
  destruct (q a); cbn [filter andb]; [destruct (p a) |]; now rewrite IH.
Qed.

Lemma forallb_filter {A} (p q : A -> bool) (l : list A) :
  forallb p l = true -> forallb p (filter q l) = true.
Proof.
  rewrite !forallb_forall. intros H a Ha. apply filter_In in Ha. now apply H.
Qed.

Lemma view_category (fc : option string) (l : list Expense) :
  match fc with
  | Some c =>
      if truthy (PyStr c) && negb (String.eqb c "All")
      then filter (category_is c) l else l
  | None => l
  end = filter (want_category fc) l.
Proof.
  unfold want_category, truthy. destruct fc as [c |]; [| now rewrite filter_all].
  destruct (String.eqb c ""), (String.eqb c "All"); cbn [negb andb orb];
    now rewrite ?filter_all.
Qed.

Lemma view_month (fm : option Z) (l : list Expense) :
  forallb has_date l = true ->
  match fm with
  | Some m =>
      if truthy (PyInt m)
      then filterM (fun e => x <- date_month e ;; Ok (x =? m)) l
      else Ok l
  | None => Ok l
  end = Ok (filter (want_month fm) l).
Proof.
  intros Hd. unfold want_month, truthy.
  destruct fm as [m |]; [| now rewrite filter_all].
  destruct (m =? 0); cbn [negb]; [now rewrite filter_all |].
  apply filterM_total. intros e He.
  rewrite forallb_forall in Hd. specialize (Hd e He).
  unfold has_date, date_month, month_of in *. now destruct (date e).
Qed.

Lemma view_year (fy : option Z) (l : list Expense) :
  forallb has_date l = true ->
  match fy with
  | Some y =>
      if truthy (PyInt y)
      then filterM (fun e => x <- date_year e ;; Ok (x =? y)) l
      else Ok l
  | None => Ok l
  end = Ok (filter (want_year fy) l).
Proof.
  intros Hd. unfold want_year, truthy.
  destruct fy as [y |]; [| now rewrite filter_all].
  destruct (y =? 0); cbn [negb]; [now rewrite filter_all |].
  apply filterM_total. intros e He.
  rewrite forallb_forall in Hd. specialize (Hd e He).
  unfold has_date, date_year, year_of in *. now destruct (date e).
Qed.

(** C4, as stated, fails twice.  An empty text for the category and a
    zero for the month or the year are arguments, yet they filter
    nothing: on the March ledger such a query returns every record,
    where the stated conjunction selects none.  And not every ledger can
    be queried: a month filter that meets a record without a date raises
    [AttributeError]. *)
Lemma view_expenses_blank_filters :
  view_expenses (Some "") (Some 0) (Some 0) march_ledger
  = Ok (expenses march_ledger)
  /\ filter (stated_selection (Some "") (Some 0) (Some 0))
       (expenses march_ledger) = []
  /\ expenses march_ledger <> []
  /\ view_expenses None (Some 3) None undated_ledger = Raise AttributeError.
Proof.
  repeat split; try discriminate; vm_compute; reflexivity.
Qed.

(** C4, amended.  On a ledger whose records carry dates, [view_expenses]
    returns, in insertion order, exactly the records that satisfy
    (no category filter or the category equals it) and (no month filter
    or the month equals it) and (no year filter or the year equals
    it), where a dimension has no filter when its argument is absent,
    is the text ["All"] or the empty text for the category, or is zero
    for the month and the year; the ledger itself is only read.  With
    all three filters absent it returns every record, in insertion
    order, on any ledger. *)
Theorem view_expenses_spec (fc : option string) (fm fy : option Z)
    (t : ExpenseTracker) :
  (forallb has_date (expenses t) = true ->
   view_expenses fc fm fy t = Ok (filter (selected fc fm fy) (expenses t)))
  /\ view_expenses None None None t = Ok (expenses t).
Proof.
  split; [| reflexivity].
  intros Hd. unfold view_expenses. rewrite view_category.
  rewrite view_month by now apply forallb_filter.
  cbn [bind]. rewrite view_year by now do 2 apply forallb_filter.
  rewrite !filter_filter. f_equal. apply filter_ext.
  intros e. unfold selected. now rewrite andb_assoc.
Qed.

Lemma view_expenses_spec_witness :
  forallb has_date (expenses march_ledger) = true
  /\ view_expenses (Some "Food") (Some 3) None march_ledger
     = Ok [mk "50.00" "Food" 2024 3 5 "lunch"; mk "20.00" "Food" 2024 3 10 ""]
  /\ view_expenses None None (Some 2023) march_ledger = Ok [].
Proof.
  split; [reflexivity |]. split.
  - exact (proj1 (view_expenses_spec (Some "Food") (Some 3) None march_ledger)
             eq_refl).
  - exact (proj1 (view_expenses_spec None None (Some 2023) march_ledger)
             eq_refl).
Defined.

(** ** The monthly summary *)

Section Summary.

Lemma typed_record_inv (e : Expense) :
  typed_record e = true ->
  amount e = PyFloat (amount_f e) /\ category e = PyStr (category_s e)
  /\ has_date e = true.
Proof.
  unfold typed_record, amount_f, category_s, has_date.
  destruct (amount e); try discriminate.
  destruct (category e); try discriminate.
  destruct (date e); try discriminate. auto.
Qed.

Lemma category_is_spec (c : string) (e : Expense) :
  typed_record e = true -> category_is c e = String.eqb (category_s e) c.
Proof.
  intros T. destruct (typed_record_inv e T) as (_ & Ec & _).
  unfold category_is. now rewrite Ec.
Qed.

Lemma filterM_in_month (m y : Z) (l : list Expense) :
  forallb typed_record l = true ->
  filterM (in_month m y) l = Ok (filter (dated m y) l).
Proof.
  intros T. apply filterM_total. intros e He.
  rewrite forallb_forall in T.
  destruct (typed_record_inv e (T e He)) as (_ & _ & Hd).
  unfold has_date, in_month, dated in *. now destruct (date e).
Qed.

Lemma add_all_floats (x : float) (l : list Expense) :
  forallb typed_record l = true ->
  add_all (PyFloat x) (map amount l)
  = Ok (PyFloat (fold_left fadd (map amount_f l) x)).
Proof.
  revert x. induction l as [| e l IH]; cbn [forallb map add_all fold_left];
    intros x T; [reflexivity |].
  apply andb_prop in T as [Te Tl].
  destruct (typed_record_inv e Te) as (-> & _ & _).
  cbn [py_add bind]. now apply IH.
Qed.

Lemma sum_float_floats (st : float * float) (l : list Expense) :
  forallb typed_record l = true ->
  sum_float st (map amount l)
  = Ok (PyFloat (flush (fold_left neumaier_step (map amount_f l) st))).
Proof.
  revert st. induction l as [| e l IH]; cbn [forallb map sum_float fold_left];
    intros st T; [reflexivity |].
  apply andb_prop in T as [Te Tl].
  destruct (typed_record_inv e Te) as (-> & _ & _). now apply IH.
Qed.

Lemma py_sum_amounts (how : summation) (l : list Expense) :
  forallb typed_record l = true ->
  py_sum how (map amount l) = Ok (float_total how l).
Proof.
  destruct l as [| e l]; [now destruct how |]. intros T.
  pose proof T as T'. cbn [forallb] in T'. apply andb_prop in T' as [Te Tl].
  destruct (typed_record_inv e Te) as (Ea & _ & _).
  unfold py_sum, float_total, fsum, csum.
  destruct how; cbn [map add_all sum_int fold_left]; rewrite Ea;
    cbn [py_add as_int]; change (float_of_int 0) with (Ok fzero); cbn [bind].
  - now apply add_all_floats.
  - now apply sum_float_floats.
Qed.

(** Keys, each once, in order of first appearance. *)

Lemma existsb_eqb_In (c : string) (ks : list string) :
  existsb (String.eqb c) ks = true <-> In c ks.
Proof.
  rewrite existsb_exists. split.
  - intros (k & Hk & E). apply String.eqb_eq in E. now subst.
  - intros H. exists c. split; [exact H | apply String.eqb_refl].
Qed.

Lemma keys_of_snoc (l : list string) (c : string) :
  keys_of (l ++ [c]) = add_key (keys_of l) c.
Proof. unfold keys_of. now rewrite fold_left_app. Qed.

Lemma keys_of_In (l : list string) (c : string) :
  In c (keys_of l) <-> In c l.
Proof.
  induction l as [| k l IH] using rev_ind; [reflexivity |].
  rewrite keys_of_snoc, in_app_iff. unfold add_key.
  destruct (existsb (String.eqb k) (keys_of l)) eqn:E.
  - apply existsb_eqb_In in E. cbn. split; [tauto |].
    intros [H | [<- | []]]; tauto.
  - rewrite in_app_iff. tauto.
Qed.

Lemma keys_of_NoDup (l : list string) : NoDup (keys_of l).
Proof.
  induction l as [| k l IH] using rev_ind; [constructor |].
  rewrite keys_of_snoc. unfold add_key.
  destruct (existsb (String.eqb k) (keys_of l)) eqn:E; [exact IH |].
  apply NoDup_app; [exact IH | repeat constructor; intros [] |].
  intros x Hx [<- | []].
  apply existsb_eqb_In in Hx. congruence.
Qed.

(** What one more record [e] does to the groups of [l]. *)

Section OneMore.

Variable l : list Expense.
Variable e : Expense.
Hypothesis Te : typed_record e = true.

Lemma group_snoc (c : string) :
  group (l ++ [e]) c
  = group l c ++ (if String.eqb (category_s e) c then [e] else []).
Proof.
  unfold group. rewrite filter_app. cbn [filter].
  now rewrite (category_is_spec c e Te).
Qed.

Lemma entry_snoc_other (c : string) :
  category_s e <> c -> entry (l ++ [e]) c = entry l c.
Proof.
  intros Hc. unfold entry. rewrite group_snoc.
  apply String.eqb_neq in Hc. rewrite Hc. now rewrite app_nil_r.
Qed.

Lemma entry_snoc_same :
  entry (l ++ [e]) (category_s e)
  = (PyStr (category_s e),
     PyFloat (fadd (fsum (map amount_f (group l (category_s e)))) (amount_f e))).
Proof.
  unfold entry. rewrite group_snoc, String.eqb_refl.
  unfold fsum. now rewrite map_app, fold_left_app.
Qed.

Lemma map_entry_snoc (ks : list string) :
  ~ In (category_s e) ks -> map (entry (l ++ [e])) ks = map (entry l) ks.
Proof.
  intros Hn. apply map_ext_in. intros k Hk.
  apply entry_snoc_other. intros E; subst k; contradiction.
Qed.

(** [by_category[c] += a] on the entries of [l], when [c] has one. *)
Lemma bump_present (ks : list string) :
  NoDup ks -> In (category_s e) ks ->
  bump (category e) (amount e) (map (entry l) ks)
  = Ok (map (entry (l ++ [e])) ks).
Proof.
  destruct (typed_record_inv e Te) as (Ea & Ec & _). rewrite Ea, Ec.
  induction ks as [| k ks IH]; intros ND Hin; [destruct Hin |].
  inversion ND as [| ? ? Hk ND']; subst. cbn [map bump entry key_eq fst].
  fold (entry l k). destruct (String.eqb k (category_s e)) eqn:E.
  - apply String.eqb_eq in E. subst k. cbn [py_add bind].
    rewrite (map_entry_snoc ks Hk), entry_snoc_same. reflexivity.
  - apply String.eqb_neq in E. destruct Hin as [-> | Hin]; [congruence |].
    rewrite (IH ND' Hin). cbn [bind].
    rewrite (entry_snoc_other k) by congruence. reflexivity.
Qed.

(** ... and when [c] has none yet. *)
Lemma bump_absent (ks : list string) :
  ~ In (category_s e) ks ->
  group l (category_s e) = [] ->
  bump (category e) (amount e) (map (entry l) ks)
  = Ok (map (entry (l ++ [e])) (ks ++ [category_s e])).
Proof.
  intros Hn Hg. destruct (typed_record_inv e Te) as (Ea & Ec & _).
  rewrite Ea, Ec.
  induction ks as [| k ks IH].
  - cbn [map bump py_add bind app]. rewrite entry_snoc_same, Hg.
    reflexivity.
  - cbn [map bump entry key_eq fst app]. fold (entry l k).
    destruct (String.eqb k (category_s e)) eqn:E.
    + apply String.eqb_eq in E. subst k. destruct Hn. now left.
    + apply String.eqb_neq in E.
      rewrite IH by (intros H; apply Hn; now right). cbn [bind].
      rewrite (entry_snoc_other k) by congruence. reflexivity.
Qed.

End OneMore.

Lemma group_nil (l : list Expense) (c : string) :
  forallb typed_record l = true -> ~ In c (map category_s l) -> group l c = [].
Proof.
  intros T Hn. unfold group.
  induction l as [| e l IH]; cbn [filter]; [reflexivity |].
  cbn [forallb] in T. apply andb_prop in T as [Te Tl].
  rewrite (category_is_spec c e Te).
  destruct (String.eqb (category_s e) c) eqn:E.
  - apply String.eqb_eq in E. destruct Hn. now left.
  - apply IH; [exact Tl | intros H; apply Hn; now right].
Qed.

Lemma bump_groups (l : list Expense) (e : Expense) :
  forallb typed_record l = true -> typed_record e = true ->
  bump (category e) (amount e) (groups l) = Ok (groups (l ++ [e])).
Proof.
  intros Tl Te. unfold groups, categories_of.
  rewrite map_app. cbn [map]. rewrite keys_of_snoc. unfold add_key.
  destruct (existsb _ _) eqn:E.
  - apply existsb_eqb_In in E.
    apply bump_present; [exact Te | apply keys_of_NoDup | exact E].
  - assert (Hn : ~ In (category_s e) (keys_of (map category_s l))).
    { intros H. apply existsb_eqb_In in H. congruence. }
    apply bump_absent; [exact Te | exact Hn |].
    apply group_nil; [exact Tl |]. now rewrite <- keys_of_In.
Qed.

Lemma tally_app (d : list (pyval * pyval)) (l k : list Expense) :
  tally d (l ++ k) = d' <- tally d l ;; tally d' k.
Proof.
  revert d. induction l as [| e l IH]; intros d; cbn [app tally]; [reflexivity |].
  destruct (hashable (category e)); [| reflexivity].
  destruct (bump _ _ d); cbn [bind]; [apply IH | reflexivity].
Qed.

Lemma tally_groups (l : list Expense) :
  forallb typed_record l = true -> tally [] l = Ok (groups l).
Proof.
  induction l as [| e l IH] using rev_ind; intros T; [reflexivity |].
  rewrite forallb_app in T. apply andb_prop in T as [Tl Te].
  cbn [forallb] in Te. rewrite andb_true_r in Te.
  rewrite tally_app, (IH Tl). cbn [bind tally].
  destruct (typed_record_inv e Te) as (_ & Ec & _).
  replace (hashable (category e)) with true by now rewrite Ec.
  rewrite (bump_groups l e Tl Te). reflexivity.
Qed.

(** The groups partition the records. *)

Lemma filter_split {A} (p : A -> bool) (l : list A) :
  Permutation l (filter p l ++ filter (fun a => negb (p a)) l).
Proof.
  induction l as [| a l IH]; cbn [filter]; [constructor |].
  destruct (p a); cbn [negb app].
  - now constructor.
  - now apply Permutation_cons_app.
Qed.

Lemma flat_map_ext_among {A B} (f g : A -> list B) (l : list A) :
  (forall a, In a l -> f a = g a) -> flat_map f l = flat_map g l.
Proof.
  induction l as [| a l IH]; cbn [flat_map]; intros H; [reflexivity |].
  rewrite (H a (or_introl eq_refl)), IH by (intros; apply H; now right).
  reflexivity.
Qed.

Lemma groups_partition (ks : list string) (l : list Expense) :
  forallb typed_record l = true -> NoDup ks ->
  (forall e, In e l -> In (category_s e) ks) ->
  Permutation (flat_map (group l) ks) l.
Proof.
  revert l. induction ks as [| k ks IH]; intros l T ND Hin.
  - destruct l as [| e l]; [constructor |]. destruct (Hin e (or_introl eq_refl)).
  - inversion ND as [| ? ? Hk ND']; subst. cbn [flat_map].
    rewrite (filter_split (category_is k) l) at 3.
    apply Permutation_app_head.
    set (l' := filter (fun a => negb (category_is k a)) l).
    assert (E : flat_map (group l) ks = flat_map (group l') ks).
    { apply flat_map_ext_among. intros c Hc. unfold group, l'.
      rewrite filter_filter. apply filter_ext_in. intros e He.
      rewrite forallb_forall in T.
      rewrite !(category_is_spec _ e (T e He)).
      destruct (String.eqb (category_s e) c) eqn:E1; [| now rewrite andb_false_r].
      apply String.eqb_eq in E1. subst c.
      destruct (String.eqb (category_s e) k) eqn:E2; [| reflexivity].
      apply String.eqb_eq in E2. congruence. }
    rewrite E. apply IH; [now apply forallb_filter | exact ND' |].
    intros e He. unfold l' in He. apply filter_In in He as [He Hne].
    destruct (Hin e He) as [E' | H]; [| exact H].
    rewrite forallb_forall in T.
    rewrite (category_is_spec _ e (T e He)), E', String.eqb_refl in Hne.
    discriminate.
Qed.

Lemma NoDup_map_PyStr (ks : list string) : NoDup ks -> NoDup (map PyStr ks).
Proof.
  induction 1 as [| k ks Hk _ IH]; cbn [map]; constructor; [| exact IH].
  rewrite in_map_iff. intros (k' & [= ->] & H). contradiction.
Qed.

Lemma In_map_PyStr (c : string) (ks : list string) :
  In (PyStr c) (map PyStr ks) <-> In c ks.
Proof.
  rewrite in_map_iff. split; [intros (k & [= ->] & H); exact H | eauto].
Qed.

Lemma groups_keys (l : list Expense) :
  map fst (groups l) = map PyStr (categories_of l).
Proof. unfold groups. rewrite map_map. reflexivity. Qed.

End Summary.

(** C3 as stated fails in its last clause: on a ledger that five
    [add_expense] calls build, the values of [by_category] add up to
    10000000000000002 while [total] is 10000000000000000 (or, with a
    compensated [sum], 10000000000000004) -- each is a chain of rounded
    floating-point additions, taken in a different order. *)
Lemma monthly_summary_values_vs_total :
  fst (enter Unpadded [("1", "Other", "2024-03-01", ""); ("1e16", "Food", "2024-03-02", "");
              ("1", "Other", "2024-03-03", ""); ("1", "Food", "2024-03-04", "");
              ("1", "Food", "2024-03-05", "")] empty_tracker fresh_world)
  = rounding_ledger
  /\ forall how, exists s v,
       monthly_summary (Some 3) (Some 2024) (at_2026 how) rounding_ledger = Ok s
       /\ py_sum how (map snd (by_category s)) = Ok v
       /\ v = PyFloat (flt "10000000000000002")
       /\ total s = PyFloat (match how with
                             | Plain => flt "10000000000000000"
                             | Compensated => flt "10000000000000004"
                             end)
       /\ v <> total s.
Proof.
  split; [vm_compute; reflexivity |].
  intros how. destruct how; do 2 eexists;
    (split; [vm_compute; reflexivity |]);
    (split; [vm_compute; reflexivity |]);
    (split; [vm_compute; reflexivity |]);
    (split; [vm_compute; reflexivity |]);
    vm_compute; discriminate.
Qed.

(** C3, amended.  On a ledger of records as [add_expense] creates them
    (float amount, string category, date), for every month [m] and year
    [y] supplied (neither is zero), [monthly_summary] returns: [total],
    the floating-point sum, as [sum] computes it, of the amounts of
    exactly the records dated in month [m] of year [y] (the integer 0
    when there is none); [count], the number of those records; and
    [by_category], whose keys are exactly the categories that appear
    among them, each once, and whose value at a category is the
    left-to-right floating-point sum of that category's selected
    amounts.  The per-category groups partition the selected records,
    so every selected amount enters exactly one value; since every
    addition rounds, the values need not add up to [total] exactly.
    The ledger is only read. *)
Theorem monthly_summary_spec (t : ExpenseTracker) (m y : Z) (sys : env) :
  m <> 0 -> y <> 0 ->
  forallb typed_record (expenses t) = true ->
  let sel := filter (dated m y) (expenses t) in
  exists s,
    monthly_summary (Some m) (Some y) sys t = Ok s
    /\ total s = float_total (float_sum sys) sel
    /\ (sel = [] -> total s = PyInt 0)
    /\ count s = List.length sel
    /\ by_category s = groups sel
    /\ (forall c, In (PyStr c) (map fst (by_category s))
                  <-> exists e, In e sel /\ category e = PyStr c)
    /\ NoDup (map fst (by_category s))
    /\ (forall c v, In (PyStr c, v) (by_category s) ->
                    v = PyFloat (fsum (map amount_f (group sel c))))
    /\ Permutation (flat_map (group sel) (categories_of sel)) sel.
Proof.
  intros Hm Hy T sel.
  assert (Ts : forallb typed_record sel = true) by now apply forallb_filter.
  unfold monthly_summary. cbn [truthy].
  apply Z.eqb_neq in Hm, Hy. rewrite Hm, Hy. cbn [negb].
  rewrite (filterM_in_month m y _ T). cbn [bind]. fold sel.
  rewrite (py_sum_amounts _ sel Ts), (tally_groups sel Ts). cbn [bind].
  eexists. split; [reflexivity |]. cbn [total count by_category].
  repeat split.
  - intros ->. reflexivity.
  - rewrite groups_keys, In_map_PyStr. unfold categories_of.
    rewrite keys_of_In, in_map_iff. intros (e & <- & He). exists e.
    split; [exact He |]. rewrite forallb_forall in Ts.
    now destruct (typed_record_inv e (Ts e He)) as (_ & -> & _).
  - rewrite groups_keys, In_map_PyStr. unfold categories_of.
    rewrite keys_of_In, in_map_iff. intros (e & He & Ec). exists e.
    split; [| exact He]. unfold category_s. now rewrite Ec.
  - rewrite groups_keys. apply NoDup_map_PyStr, keys_of_NoDup.
  - intros c v H. unfold groups in H. apply in_map_iff in H.
    destruct H as (k & [= -> <-] & _). reflexivity.
  - apply groups_partition; [exact Ts | apply keys_of_NoDup |].
    intros e He. unfold categories_of. rewrite keys_of_In. now apply in_map.
Qed.

Lemma monthly_summary_spec_witness :
  forallb typed_record (expenses march_ledger) = true
  /\ forall how, exists s,
       monthly_summary (Some 3) (Some 2024) (at_2026 how) march_ledger = Ok s
       /\ total s = PyFloat (flt "170.00")
       /\ count s = 3%nat
       /\ by_category s = [(PyStr "Food", PyFloat (flt "70.00"));
                           (PyStr "Rent/Mortgage", PyFloat (flt "100.00"))].
Proof.
  split; [reflexivity |]. intros how.
  destruct (monthly_summary_spec march_ledger 3 2024 (at_2026 how))
    as (s & E & Ht & _ & Hc & Hb & _); [lia | lia | reflexivity |].
  exists s. split; [exact E |]. rewrite Ht, Hc, Hb.
  destruct how; repeat split; vm_compute; reflexivity.
Defined.

(** ** Loading *)

Lemma from_dict_record_object (item : pyval) :
  record_object item = true ->
  exists e, from_dict item = Ok e /\ loaded_from item e.
Proof.
  unfold record_object, loaded_from, from_dict, getitem, field.
  destruct item as [| | | | | | | kv]; try discriminate.
  destruct (lookup "date" kv) as [[| | | | s | | |] |]; try discriminate.
  destruct (lookup "amount" kv) as [a |]; try discriminate.
  destruct (lookup "category" kv) as [c |]; try discriminate.
  destruct (strptime s) as [d |] eqn:Ed; try discriminate.
  intros _. cbn [bind]. rewrite Ed. cbn [bind].
  eexists. split; [reflexivity |]. cbn. eauto 6.
Qed.

Lemma mapM_from_dict_objects (items : list pyval) :
  forallb record_object items = true ->
  exists es, mapM from_dict items = Ok es /\ Forall2 loaded_from items es.
Proof.
  induction items as [| item items IH]; cbn [forallb mapM]; intros H.
  - exists []. split; [reflexivity | constructor].
  - apply andb_prop in H as [Hi Hs].
    destruct (from_dict_record_object item Hi) as (e & -> & He).
    destruct (IH Hs) as (es & -> & Hes). cbn [bind].
    exists (e :: es). split; [reflexivity | now constructor].
Qed.

(** Starting the tracker on a file that lists record objects. *)
Lemma init_objects (items : list pyval) (w : world) :
  disk w = Some (Json (PyList items)) ->
  forallb record_object items = true ->
  exists es, init w = Ok {| expenses := es |} /\ Forall2 loaded_from items es.
Proof.
  intros Hd Ho. unfold init, load_expenses, read_expenses. rewrite Hd.
  cbn [iterate bind].
  destruct (mapM_from_dict_objects items Ho) as (es & -> & Hes).
  exists es. split; [reflexivity | exact Hes].
Qed.

Lemma Forall2_In_left {A B} (R : A -> B -> Prop) (l : list A) (k : list B) (a : A) :
  Forall2 R l k -> In a l -> exists b, In b k /\ R a b.
Proof.
  induction 1 as [| x y l k Hxy _ IH]; intros Hin; [destruct Hin |].
  destruct Hin as [-> | Hin]; [exists y; split; [now left | exact Hxy] |].
  destruct (IH Hin) as (b & Hb & HR). exists b. split; [now right | exact HR].
Qed.

(** C7, as stated, fails on an amount that is no number at all: after
    the tracker has started on a file holding a record of category
    ["Groceries"], an [add_expense] with that category and the amount
    [None] raises the bare [Exception], not the [ValueError]. *)
Lemma unknown_category_amount_none :
  init foreign_file = Ok foreign_ledger
  /\ (exists e, In e (expenses foreign_ledger)
                /\ category e = PyStr "Groceries")
  /\ in_categories (PyStr "Groceries") = false
  /\ add_expense Unpadded PyNone (PyStr "Groceries") (PyStr "2023-11-02")
       (PyStr "market") foreign_ledger foreign_file
     = (Raise Exception, foreign_ledger, foreign_file)
  /\ Exception <> ValueError.
Proof.
  split; [reflexivity |]. split.
  - eexists. split; [left; reflexivity | reflexivity].
  - repeat split; try discriminate; vm_compute; reflexivity.
Qed.

(** C7, amended.  A file of record objects in which one object has a
    category [c] outside the fixed set loads without error; the record
    comes back from an unfiltered [view_expenses] with the category [c]
    untouched; and every later [add_expense] with category [c] fails
    and changes neither the ledger nor the file: with [ValueError] when
    the amount is text, a float, a boolean or an integer a float can
    hold, with the bare [Exception] for any other amount. *)
Theorem unknown_category_loads (libc : year_style) (items : list pyval)
    (item c : pyval) (w : world) :
  disk w = Some (Json (PyList items)) ->
  forallb record_object items = true ->
  In item items ->
  field "category" item = Some c ->
  in_categories c = false ->
  exists t,
    init w = Ok t
    /\ (exists e, view_expenses None None None t = Ok (expenses t)
                  /\ In e (expenses t) /\ loaded_from item e /\ category e = c)
    /\ forall amt dt desc w2,
         add_expense libc amt c dt desc t w2
         = (Raise (if amount_like amt then ValueError else Exception), t, w2).
Proof.
  intros Hd Ho Hin Hc Hno.
  destruct (init_objects items w Hd Ho) as (es & E & Hes).
  exists {| expenses := es |}. split; [exact E |]. split.
  - destruct (Forall2_In_left _ _ _ _ Hes Hin) as (e & He & Hl).
    exists e. repeat split; try assumption; try apply Hl.
    destruct Hl as (_ & Hc' & _). congruence.
  - intros amt dt desc w2. destruct (amount_like amt) eqn:Hty.
    + now apply add_expense_unknown_category.
    + now apply add_expense_unconvertible, py_float_not_amount_like.
Qed.

Lemma unknown_category_loads_witness :
  exists t,
    init foreign_file = Ok t
    /\ (exists e, view_expenses None None None t = Ok (expenses t)
                  /\ In e (expenses t) /\ category e = PyStr "Groceries")
    /\ add_expense Unpadded (PyStr "12") (PyStr "Groceries") (PyStr "2023-11-02")
         (PyStr "market") t foreign_file
       = (Raise ValueError, t, foreign_file).
Proof.
  destruct (unknown_category_loads Unpadded
              [PyDict [("amount", PyInt 12); ("category", PyStr "Groceries");
                       ("date", PyStr "2023-11-02"); ("description", PyStr "market")];
               PyDict [("date", PyStr "2023-11-03"); ("category", PyStr "Food");
                       ("amount", PyInt 0)];
               PyDict [("amount", PyFloat (flt "-5")); ("category", PyStr "Other");
                       ("date", PyStr "2023-11-04")];
               PyDict [("amount", PyStr "abc"); ("category", PyStr "Other");
                       ("date", PyStr "2023-11-05"); ("description", PyStr "")]]
              (PyDict [("amount", PyInt 12); ("category", PyStr "Groceries");
                       ("date", PyStr "2023-11-02"); ("description", PyStr "market")])
              (PyStr "Groceries") foreign_file)
    as (t & E & (e & Hv & He & _ & Hc) & Hadd);
    [reflexivity | reflexivity | now left | reflexivity | reflexivity |].
  exists t. split; [exact E |]. split; [exists e; auto |].
  exact (Hadd (PyStr "12") (PyStr "2023-11-02") (PyStr "market") foreign_file).
Defined.

(** C8.  When no file exists at the path, starting the tracker does not
    fail and the ledger is empty.  When the file lists record objects,
    loading succeeds, and a record whose object has no description gets
    the empty string as its description. *)
Theorem load_defaults (w : world) :
  (disk w = None -> init w = Ok {| expenses := [] |})
  /\ (forall items,
        disk w = Some (Json (PyList items)) ->
        forallb record_object items = true ->
        exists es,
          init w = Ok {| expenses := es |}
          /\ Forall2 (fun item e =>
                        loaded_from item e
                        /\ (field "description" item = None ->
                            description e = PyStr ""))
               items es).
Proof.
  split.
  - intros Hd. unfold init, load_expenses. now rewrite Hd.
  - intros items Hd Ho.
    destruct (init_objects items w Hd Ho) as (es & E & Hes).
    exists es. split; [exact E |]. clear Hd Ho E.
    induction Hes as [| item e items es Hl _ IH]; [constructor |].
    constructor; [| exact IH].
    split; [exact Hl |]. intros Hn.
    destruct Hl as (_ & _ & _ & ->). now rewrite Hn.
Qed.

Lemma load_defaults_witness :
  init fresh_world = Ok {| expenses := [] |}
  /\ exists es,
       init foreign_file = Ok {| expenses := es |}
       /\ map description es
          = [PyStr "market"; PyStr ""; PyStr ""; PyStr ""].
Proof.
  split; [exact (proj1 (load_defaults fresh_world) eq_refl) |].
  destruct (proj2 (load_defaults foreign_file) _ eq_refl eq_refl)
    as (es & E & _).
  exists es. split; [exact E |].
  vm_compute in E. injection E as <-. reflexivity.
Defined.

(** C10.  Loading asks nothing of the amount: a file of record objects
    (each with a date that parses) loads, and every record carries its
    object's amount exactly as the file has it -- zero, negative and
    non-numeric amounts included.  The check [amount > 0] belongs to
    [add_expense] alone. *)
Theorem load_keeps_amounts (items : list pyval) (w : world) :
  disk w = Some (Json (PyList items)) ->
  forallb record_object items = true ->
  exists es,
    init w = Ok {| expenses := es |}
    /\ map Some (map amount es) = map (field "amount") items
    /\ List.length es = List.length items.
Proof.
  intros Hd Ho. destruct (init_objects items w Hd Ho) as (es & E & Hes).
  exists es. split; [exact E |]. clear Hd Ho E.
  induction Hes as [| item e items' es' Hl _ [IH1 IH2]]; [split; reflexivity |].
  destruct Hl as (Ha & _). cbn [map List.length]. rewrite Ha, IH1, IH2.
  split; reflexivity.
Qed.

Lemma load_keeps_amounts_witness :
  exists es,
    init foreign_file = Ok {| expenses := es |}
    /\ map amount es = [PyInt 12; PyInt 0; PyFloat (flt "-5"); PyStr "abc"]
    /\ fst (fst (add_expense Unpadded (PyInt 0) (PyStr "Food") (PyStr "2023-11-03")
                   (PyStr "") {| expenses := es |} foreign_file))
       = Raise ValueError.
Proof.
  destruct (load_keeps_amounts _ foreign_file eq_refl eq_refl)
    as (es & E & _).
  exists es. split; [exact E |].
  vm_compute in E. injection E as <-. split; vm_compute; reflexivity.
Defined.

(** * Further properties of the ledger *)

(** ** Saving, in general *)

Lemma mapM_to_dict_dated {libc : year_style} (es : list Expense) :
  forallb has_date es = true ->
  exists ds, mapM (to_dict libc) es = Ok ds /\ map PyDict ds = map (record_dict libc) es.
Proof.
  induction es as [| e es IH]; cbn [forallb mapM map]; intros H.
  - now exists [].
  - apply andb_prop in H as [He Hes]. destruct (IH Hes) as (ds & -> & Eds).
    unfold has_date in He. unfold to_dict, record_dict.
    destruct (date e); try discriminate He.
    cbn [bind]. eexists; split; [reflexivity |]. cbn [map]. now rewrite Eds.
Qed.

Lemma mapM_to_dict_undated {libc : year_style} (es : list Expense) :
  forallb has_date es = false -> mapM (to_dict libc) es = Raise AttributeError.
Proof.
  induction es as [| e es IH]; cbn [forallb mapM]; intros H; [discriminate |].
  unfold to_dict at 1. unfold has_date in H at 1.
  destruct (date e); try reflexivity.
  cbn [andb bind] in *. now rewrite (IH H).
Qed.

Lemma serialisable_record_dicts {libc : year_style} (es : list Expense) :
  forallb has_date es = true ->
  serialisable (PyList (map (record_dict libc) es)) = forallb writable_record es.
Proof.
  cbn [serialisable]. induction es as [| e es IH]; cbn [forallb map]; intros H.
  - reflexivity.
  - apply andb_prop in H as [He Hes]. rewrite (IH Hes). f_equal.
    unfold writable_record. rewrite He. unfold has_date in He.
    unfold record_dict. destruct (date e); try discriminate He.
    cbn [serialisable forallb andb]. now rewrite andb_true_r, andb_assoc.
Qed.

Lemma writable_record_dated (es : list Expense) :
  forallb has_date es = false -> forallb writable_record es = false.
Proof.
  induction es as [| e es IH]; cbn [forallb]; intros H; [discriminate |].
  unfold writable_record at 1. destruct (has_date e); cbn [andb] in *.
  - now rewrite (IH H), andb_false_r.
  - reflexivity.
Qed.

(** X1.  [save_expenses] succeeds exactly when the path is writable and
    every record has a date and fields JSON can hold; the file then
    holds the whole ledger, whatever it held before.  In every other
    case it raises the bare [Exception]; unless the open itself was
    refused, the file has already been emptied, so what it held is
    lost and the next start of the tracker fails. *)
Theorem save_expenses_outcome (libc : year_style)
    (t : ExpenseTracker) (w : world) :
  save_expenses libc t w
  = match media w with
    | ReadOnly => (Raise Exception, w)
    | Writable =>
        if forallb writable_record (expenses t)
        then (Ok tt, {| disk := Some (Json (PyList (map (record_dict libc) (expenses t))));
                        media := Writable |})
        else (Raise Exception, {| disk := Some Garbled; media := Writable |})
    | Full => (Raise Exception, {| disk := Some Garbled; media := Full |})
    end
  /\ (media w <> ReadOnly ->
      (exists x, fst (save_expenses libc t w) = Raise x) ->
      init (snd (save_expenses libc t w)) = Raise Exception).
Proof.
  assert (E : save_expenses libc t w
    = match media w with
      | ReadOnly => (Raise Exception, w)
      | Writable =>
          if forallb writable_record (expenses t)
          then (Ok tt, {| disk := Some (Json (PyList (map (record_dict libc) (expenses t))));
                          media := Writable |})
          else (Raise Exception, {| disk := Some Garbled; media := Writable |})
      | Full => (Raise Exception, {| disk := Some Garbled; media := Full |})
      end).
  { unfold save_expenses, write_expenses.
    destruct (media w); [| reflexivity |].
    - destruct (forallb has_date (expenses t)) eqn:Hd.
      + destruct (mapM_to_dict_dated (libc := libc) _ Hd) as (ds & -> & ->).
        rewrite (serialisable_record_dicts _ Hd).
        now destruct (forallb writable_record (expenses t)).
      + rewrite (mapM_to_dict_undated _ Hd), (writable_record_dated _ Hd).
        reflexivity.
    - destruct (mapM (to_dict libc) (expenses t)); reflexivity. }
  split; [exact E |]. rewrite E. intros Hm [x Hx].
  destruct (media w); [| congruence |].
  - destruct (forallb writable_record (expenses t)); [discriminate | reflexivity].
  - reflexivity.
Qed.

Lemma save_expenses_outcome_witness :
  let w := {| disk := Some (Json (PyList [])); media := Writable |} in
  fst (save_expenses Unpadded undated_ledger w) = Raise Exception
  /\ init (snd (save_expenses Unpadded undated_ledger w)) = Raise Exception.
Proof.
  intros w. split; [reflexivity |].
  refine (proj2 (save_expenses_outcome Unpadded undated_ledger w) _ _);
    [discriminate | eexists; reflexivity].
Defined.

(** ** Loading, in general *)

Lemma from_dict_not_record_object (item : pyval) :
  record_object item = false -> exists x, from_dict item = Raise x.
Proof.
  unfold record_object, from_dict, getitem, field.
  destruct item as [| | | | | | | kv]; try (intros _; eexists; reflexivity).
  destruct (lookup "date" kv) as [[| | | | s | | |] |];
    try (intros _; eexists; reflexivity).
  cbn [bind]. destruct (strptime s) as [d | x].
  - destruct (lookup "amount" kv); [| intros _; eexists; reflexivity].
    destruct (lookup "category" kv); [discriminate |].
    intros _; eexists; reflexivity.
  - intros _; eexists; reflexivity.
Qed.

Lemma mapM_from_dict_fails (items : list pyval) :
  forallb record_object items = false ->
  exists x, mapM from_dict items = Raise x.
Proof.
  induction items as [| item items IH]; cbn [forallb mapM]; intros H;
    [discriminate |].
  destruct (record_object item) eqn:Ho; cbn [andb] in H.
  - destruct (from_dict_record_object item Ho) as (e & -> & _).
    destruct (IH H) as (x & ->). cbn [bind]. eauto.
  - destruct (from_dict_not_record_object item Ho) as (x & ->). cbn [bind]. eauto.
Qed.

(** X2.  Loading is all or nothing.  When every item of the file's list
    is an object with an amount, a category and a date text that
    parses, the ledger becomes exactly those records, in order; when a
    single item is not, [load_expenses] raises the bare [Exception] and
    the ledger keeps what it had -- none of the file's records is
    taken. *)
Theorem load_all_or_nothing (items : list pyval) (w : world) (t0 : ExpenseTracker) :
  disk w = Some (Json (PyList items)) ->
  if forallb record_object items
  then exists es, load_expenses t0 w = (Ok tt, {| expenses := es |})
                  /\ Forall2 loaded_from items es
  else load_expenses t0 w = (Raise Exception, t0).
Proof.
  intros Hd. unfold load_expenses, read_expenses. rewrite Hd. cbn [iterate bind].
  destruct (forallb record_object items) eqn:Ho.
  - destruct (mapM_from_dict_objects items Ho) as (es & -> & Hes). eauto.
  - destruct (mapM_from_dict_fails items Ho) as (x & ->). reflexivity.
Qed.

Lemma load_all_or_nothing_witness :
  let bad := {| disk := Some (Json (PyList
                   [PyDict [("amount", PyInt 12); ("category", PyStr "Food");
                            ("date", PyStr "2023-11-02")];
                    PyDict [("amount", PyInt 3); ("category", PyStr "Food");
                            ("date", PyStr "2023-02-30")]]));
                media := Writable |} in
  load_expenses march_ledger bad = (Raise Exception, march_ledger).
Proof.
  intros bad.
  exact (load_all_or_nothing _ bad march_ledger eq_refl).
Defined.

(** X3.  A file that is not a list.  Text that is not JSON, and a JSON
    number, boolean or null, make the tracker fail to start with the
    bare [Exception]; a JSON object or string does too unless it is
    empty, in which case the tracker starts with an empty ledger. *)
Theorem init_not_a_list (w : world) :
  match disk w with
  | Some Garbled => init w = Raise Exception
  | Some (Json (PyDict kv)) =>
      init w = match kv with [] => Ok {| expenses := [] |} | _ => Raise Exception end
  | Some (Json (PyStr s)) =>
      init w = if String.eqb s "" then Ok {| expenses := [] |} else Raise Exception
  | Some (Json (PyNone | PyBool _ | PyInt _ | PyFloat _ | PyDate _ _ _)) =>
      init w = Raise Exception
  | _ => True
  end.
Proof.
  unfold init, load_expenses, read_expenses.
  destruct (disk w) as [[[| | | | s | | | kv] |] |]; try reflexivity; try exact I.
  - destruct s as [| c s]; reflexivity.
  - destruct kv as [| [k v] kv]; reflexivity.
Qed.

(** Values read from a JSON file stay JSON values. *)

Lemma lookup_serialisable (k : string) (kv : list (string * pyval)) (v : pyval) :
  forallb (fun '(_, x) => serialisable x) kv = true ->
  lookup k kv = Some v -> serialisable v = true.
Proof.
  induction kv as [| [k' x] kv IH]; cbn [forallb lookup]; [discriminate |].
  intros H. apply andb_prop in H as [Hx Hkv].
  destruct (String.eqb k k'); [now intros [= <-] | now apply IH].
Qed.

Lemma from_dict_storable (item : pyval) (e : Expense) :
  serialisable item = true -> from_dict item = Ok e -> storable e = true.
Proof.
  unfold from_dict, getitem.
  destruct item as [| | | | | | | kv]; try discriminate.
  cbn [serialisable]. intros Hs.
  destruct (lookup "date" kv) as [[| | | | s | | |] |] eqn:Ed; try discriminate.
  cbn [bind]. destruct (strptime_result s) as [(d & -> & Hd) | ->];
    [| discriminate].
  cbn [bind].
  destruct (lookup "amount" kv) as [a |] eqn:Ea; [| discriminate].
  destruct (lookup "category" kv) as [c |] eqn:Ec; [| discriminate].
  cbn [bind]. intros [= <-]. unfold storable. cbn.
  rewrite Hd, (lookup_serialisable _ _ _ Hs Ea), (lookup_serialisable _ _ _ Hs Ec).
  destruct (lookup "description" kv) as [ds |] eqn:Eds; [| reflexivity].
  now rewrite (lookup_serialisable _ _ _ Hs Eds).
Qed.

Lemma mapM_from_dict_storable (items : list pyval) (es : list Expense) :
  forallb serialisable items = true ->
  mapM from_dict items = Ok es -> forallb storable es = true.
Proof.
  revert es. induction items as [| item items IH]; cbn [forallb mapM]; intros es H.
  - now intros [= <-].
  - apply andb_prop in H as [Hi Hs].
    destruct (from_dict item) as [e |] eqn:Ee; [| discriminate]. cbn [bind].
    destruct (mapM from_dict items) as [es' |]; [| discriminate]. cbn [bind].
    intros [= <-]. cbn [forallb].
    now rewrite (from_dict_storable item e Hi Ee), (IH es' Hs eq_refl).
Qed.

Lemma iterate_serialisable (data : pyval) (items : list pyval) :
  serialisable data = true -> iterate data = Ok items ->
  forallb serialisable items = true.
Proof.
  destruct data as [| | | | s | | l | kv]; cbn [iterate]; try discriminate;
    intros Hs [= <-].
  - now induction (chars s).
  - exact Hs.
  - clear Hs. induction kv as [| [k v] kv IH]; [reflexivity | exact IH].
Qed.

(** X4.  What loads can be saved and loaded again unchanged, where the
    file keeps the years: after the tracker has started from a JSON
    file, if every date of its ledger is written with a four-digit year
    -- every date where the C library pads, dates from the year 1000 on
    where it does not --, then saving the ledger to a writable path
    succeeds, and a tracker started from the file so written has the
    same ledger. *)
Theorem reload_stable (libc : year_style) (data : pyval) (w : world)
    (t : ExpenseTracker) :
  disk w = Some (Json data) ->
  serialisable data = true ->
  media w = Writable ->
  init w = Ok t ->
  forallb (fun e => four_digit_year libc (date e)) (expenses t) = true ->
  exists w', save_expenses libc t w = (Ok tt, w') /\ init w' = Ok t.
Proof.
  intros Hd Hs Hm Hi Hy.
  assert (St : forallb storable (expenses t) = true).
  { unfold init, load_expenses, read_expenses in Hi. rewrite Hd in Hi.
    destruct (iterate data) as [items |] eqn:Ei; [| discriminate]. cbn [bind] in Hi.
    destruct (mapM from_dict items) as [es |] eqn:Ees; [| discriminate].
    injection Hi as <-. cbn [expenses].
    exact (mapM_from_dict_storable items es (iterate_serialisable _ _ Hs Ei) Ees). }
  eexists. split; [apply (save_expenses_ok t w Hm St) |].
  unfold init, load_expenses, read_expenses. cbn [disk iterate bind].
  rewrite (mapM_from_dict_records _ (storable_is_date _ St) Hy).
  now destruct t.
Qed.

Lemma reload_stable_witness :
  exists t w',
    init foreign_file = Ok t
    /\ save_expenses Unpadded t foreign_file = (Ok tt, w')
    /\ init w' = Ok t.
Proof.
  destruct (init foreign_file) as [t |] eqn:E; [| discriminate E].
  assert (Hy : forallb (fun e => four_digit_year Unpadded (date e))
                 (expenses t) = true).
  { vm_compute in E. injection E as <-. reflexivity. }
  destruct (reload_stable Unpadded _ foreign_file t eq_refl eq_refl eq_refl E Hy)
    as (w' & Hs & Hi).
  exists t, w'. auto.
Defined.

(** ** Adding, in general *)

Lemma mapM_to_dict_inv {libc : year_style}
    (es : list Expense) (ds : list (list (string * pyval))) :
  mapM (to_dict libc) es = Ok ds -> map PyDict ds = map (record_dict libc) es.
Proof.
  intros H. destruct (forallb has_date es) eqn:Hd.
  - destruct (mapM_to_dict_dated (libc := libc) es Hd) as (ds' & E & <-). congruence.
  - rewrite (mapM_to_dict_undated es Hd) in H. discriminate.
Qed.

Lemma save_expenses_ok_inv {libc : year_style}
    (t : ExpenseTracker) (w w' : world) (u : unit) :
  save_expenses libc t w = (Ok u, w') ->
  disk w' = Some (Json (PyList (map (record_dict libc) (expenses t)))).
Proof.
  unfold save_expenses, write_expenses.
  destruct (media w); try discriminate;
    destruct (mapM (to_dict libc) (expenses t)) as [ds |] eqn:E; try discriminate.
  destruct (serialisable _); [| discriminate].
  intros [= _ <-]. cbn [disk]. now rewrite (mapM_to_dict_inv _ _ E).
Qed.

(** X5.  Memory and file agree after a successful add, where the file
    keeps the years: when [add_expense] returns [True] and every date
    of the ledger it produced is a calendar date written with a
    four-digit year -- every date where the C library pads, dates from
    the year 1000 on where it does not --, a tracker started from the
    file the call left has exactly that ledger. *)
Theorem add_then_restart (libc : year_style) (amt cat dt desc : pyval)
    (t t' : ExpenseTracker) (w w' : world) :
  add_expense libc amt cat dt desc t w = (Ok true, t', w') ->
  forallb (fun e => is_date (date e)) (expenses t') = true ->
  forallb (fun e => four_digit_year libc (date e)) (expenses t') = true ->
  init w' = Ok t'.
Proof.
  unfold add_expense, try_add_expense. intros H Hd Hy.
  destruct (py_float amt) as [a |]; [| discriminate].
  destruct (fleb a fzero); [discriminate |].
  destruct (negb (in_categories cat)); [discriminate |].
  destruct (parse_if_str dt) as [d |]; [| discriminate].
  destruct (save_expenses libc _ w) as [[u | x] w''] eqn:Es; [| discriminate].
  injection H as <- <-. apply save_expenses_ok_inv in Es.
  unfold init, load_expenses, read_expenses. rewrite Es. cbn [iterate bind].
  now rewrite (mapM_from_dict_records _ Hd Hy).
Qed.

Lemma add_then_restart_witness :
  exists t' w',
    add_expense Unpadded (PyStr "12.34") (PyStr "Shopping") (PyStr "2024-04-01")
      (PyStr "socks") march_ledger fresh_world = (Ok true, t', w')
    /\ init w' = Ok t'.
Proof.
  destruct (add_expense Unpadded (PyStr "12.34") (PyStr "Shopping") (PyStr "2024-04-01")
              (PyStr "socks") march_ledger fresh_world) as [[r t'] w'] eqn:E.
  vm_compute in E. injection E as <- <- <-.
  do 2 eexists. split; [reflexivity |].
  apply (add_then_restart Unpadded (PyStr "12.34") (PyStr "Shopping") (PyStr "2024-04-01")
           (PyStr "socks") march_ledger _ fresh_world);
    vm_compute; reflexivity.
Defined.

(** X6.  [add_expense] only ever appends, whatever it is given.
    Afterwards the ledger is the old one -- then the call raised and
    the file is untouched -- or the old one followed by one new record,
    whose amount is a float that did not compare [<= 0] and whose
    category is one of the fixed categories; only then can the call
    return [True], and otherwise it raises the bare [Exception]. *)
Theorem add_expense_outcome (libc : year_style)
    (amt cat dt desc : pyval) (t t' : ExpenseTracker)
    (w w' : world) (r : result bool) :
  add_expense libc amt cat dt desc t w = (r, t', w') ->
  (t' = t /\ w' = w /\ exists x, r = Raise x)
  \/ (exists a d,
        py_float amt = Ok a /\ fleb a fzero = false
        /\ in_categories cat = true /\ parse_if_str dt = Ok d
        /\ expenses t'
           = expenses t ++ [{| amount := PyFloat a; category := cat;
                               date := d; description := desc |}]
        /\ (r = Ok true \/ r = Raise Exception)).
Proof.
  unfold add_expense, try_add_expense.
  destruct (py_float amt) as [a | x];
    [| intros [= <- <- <-]; left; eauto].
  destruct (fleb a fzero) eqn:Ele; [intros [= <- <- <-]; left; eauto |].
  destruct (in_categories cat) eqn:Ec; cbn [negb];
    [| intros [= <- <- <-]; left; eauto].
  destruct (parse_if_str dt) as [d | x]; [| intros [= <- <- <-]; left; eauto].
  intros H. right. exists a, d.
  destruct (save_expenses libc _ w) as [[u | x] w''] eqn:Es; injection H as <- <- <-.
  - repeat split; auto.
  - apply (f_equal fst) in Es. apply save_expenses_raises in Es. subst x.
    repeat split; auto.
Qed.

Lemma add_expense_outcome_witness :
  exists t' w' r,
    add_expense Unpadded (PyInt 3) (PyStr "Food") PyNone (PyList []) march_ledger
      {| disk := None; media := Full |} = (r, t', w')
    /\ List.length (expenses t') = 4%nat /\ r = Raise Exception.
Proof.
  destruct (add_expense Unpadded (PyInt 3) (PyStr "Food") PyNone (PyList []) march_ledger
              {| disk := None; media := Full |}) as [[r t'] w'] eqn:E.
  exists t', w', r. split; [reflexivity |].
  destruct (add_expense_outcome Unpadded _ _ _ _ _ _ _ _ _ E)
    as [(-> & _ & _) | (a & d & _ & _ & _ & _ & -> & _)].
  - vm_compute in E. discriminate E.
  - split; [reflexivity |]. vm_compute in E. now injection E as <- _ _.
Defined.

(** One entry made of text, as the form makes it. *)
Lemma add_text_entered {libc : year_style}
    (a c d ds : string) (t t' : ExpenseTracker)
    (w w' : world) (r : result bool) :
  add_expense libc (PyStr a) (PyStr c) (PyStr d) (PyStr ds) t w = (r, t', w') ->
  forallb entered (expenses t) = true ->
  forallb entered (expenses t') = true.
Proof.
  unfold add_expense, try_add_expense. cbn [py_float parse_if_str].
  destruct (float_of_string a) as [x | e]; [| now intros [= _ <- _]].
  destruct (fleb x fzero) eqn:Ele; [now intros [= _ <- _] |].
  destruct (in_categories (PyStr c)) eqn:Ec; cbn [negb];
    [| now intros [= _ <- _]].
  destruct (strptime_result d) as [(dd & -> & Hd) | ->];
    [| now intros [= _ <- _]].
  intros H Ht.
  assert (E : expenses t'
              = expenses t ++ [{| amount := PyFloat x; category := PyStr c;
                                  date := dd; description := PyStr ds |}]).
  { destruct (save_expenses libc _ w) as [[u | e] w'']; now injection H as _ <- _. }
  rewrite E, forallb_app, Ht. cbn [forallb entered amount category description date].
  now rewrite Ele, Ec, Hd.
Qed.

(** X7.  A ledger built by text entries stays well formed: starting
    from records that each carry a float amount not [<= 0], one of the
    fixed categories, a calendar date and a text description, any
    sequence of [add_expense] calls on text -- accepted or rejected,
    saved or not -- leaves a ledger of such records. *)
Theorem enter_keeps_entered (libc : year_style)
    (inputs : list (string * string * string * string))
    (t : ExpenseTracker) (w : world) :
  forallb entered (expenses t) = true ->
  forallb entered (expenses (fst (enter libc inputs t w))) = true.
Proof.
  unfold enter. revert t w.
  induction inputs as [| [[[a c] d] ds] inputs IH]; intros t w Ht; [exact Ht |].
  cbn [fold_left].
  destruct (add_expense libc (PyStr a) (PyStr c) (PyStr d) (PyStr ds) t w)
    as [[r t'] w'] eqn:E.
  apply IH. exact (add_text_entered _ _ _ _ _ _ _ _ _ E Ht).
Qed.

Lemma enter_keeps_entered_witness :
  forallb entered
    (expenses (fst (enter Unpadded
                      [("nan", "Food", "2024-03-05", "");
                       ("-1", "Food", "2024-03-05", "");
                       ("2", "Other", "2024-3-5", "tea");
                       ("2", "Other", "2024-02-30", "")]
                      march_ledger {| disk := None; media := ReadOnly |})))
  = true.
Proof.
  apply (enter_keeps_entered Unpadded). reflexivity.
Defined.

(** ** Queries, in general *)

Lemma entered_typed (l : list Expense) :
  forallb entered l = true -> forallb typed_record l = true.
Proof.
  rewrite !forallb_forall. intros H e He. specialize (H e He).
  unfold entered, typed_record, is_date in *.
  destruct (amount e); try discriminate. destruct (category e); try discriminate.
  destruct (description e); try discriminate.
  destruct (date e); try (now rewrite andb_false_r in H). reflexivity.
Qed.

Lemma typed_has_date (l : list Expense) :
  forallb typed_record l = true -> forallb has_date l = true.
Proof.
  rewrite !forallb_forall. intros H e He.
  now destruct (typed_record_inv e (H e He)) as (_ & _ & ?).
Qed.

Lemma entered_writable (l : list Expense) :
  forallb entered l = true -> forallb storable l = true.
Proof.
  rewrite !forallb_forall. intros H e He. specialize (H e He).
  unfold entered, storable in *.
  destruct (amount e); try discriminate. destruct (category e); try discriminate.
  destruct (description e); try discriminate.
  apply andb_prop in H as [_ ->]. reflexivity.
Qed.

(** X8.  On a ledger built by text entries no query fails.
    [view_expenses] returns the filtered records for every combination
    of arguments.  [monthly_summary] returns a summary for every month
    and year -- each the argument when it is given and is not zero, the
    clock's otherwise --: its count is the number of the records dated
    in that month of that year, its total their floating-point sum, its
    categories their per-category sums.  And a save to a writable path
    succeeds. *)
Theorem entered_queries_succeed (libc : year_style) (t : ExpenseTracker) :
  forallb entered (expenses t) = true ->
  (forall fc fm fy,
      view_expenses fc fm fy t = Ok (filter (selected fc fm fy) (expenses t)))
  /\ (forall month year sys,
        let sel := filter (dated (summarised month (this_month sys))
                                 (summarised year (this_year sys)))
                     (expenses t) in
        monthly_summary month year sys t
        = Ok {| total := float_total (float_sum sys) sel;
                by_category := groups sel;
                count := List.length sel |})
  /\ (forall w, media w = Writable -> fst (save_expenses libc t w) = Ok tt).
Proof.
  intros He. pose proof (entered_typed _ He) as T.
  pose proof (typed_has_date _ T) as Hd. repeat split.
  - intros fc fm fy. unfold view_expenses. rewrite view_category.
    rewrite view_month by now apply forallb_filter.
    cbn [bind]. rewrite view_year by now do 2 apply forallb_filter.
    rewrite !filter_filter. f_equal. apply filter_ext.
    intros e. unfold selected. now rewrite andb_assoc.
  - intros month year sys. unfold monthly_summary. cbn [truthy].
    assert (Em : match month with
                 | Some m => if negb (m =? 0) then m else this_month sys
                 | None => this_month sys
                 end = summarised month (this_month sys)).
    { destruct month as [m |]; [| reflexivity]. cbn. now destruct (m =? 0). }
    assert (Ey : match year with
                 | Some y => if negb (y =? 0) then y else this_year sys
                 | None => this_year sys
                 end = summarised year (this_year sys)).
    { destruct year as [y |]; [| reflexivity]. cbn. now destruct (y =? 0). }
    rewrite Em, Ey. clear Em Ey.
    set (m := summarised month (this_month sys)).
    set (y := summarised year (this_year sys)).
    rewrite (filterM_in_month m y _ T). cbn [bind].
    assert (Ts : forallb typed_record (filter (dated m y) (expenses t)) = true)
      by now apply forallb_filter.
    rewrite (py_sum_amounts _ _ Ts), (tally_groups _ Ts). reflexivity.
  - intros w Hm. now rewrite (save_expenses_ok t w Hm (entered_writable _ He)).
Qed.

Lemma entered_queries_succeed_witness :
  view_expenses (Some "Food") (Some 3) (Some 2024) march_ledger
  = Ok [mk "50.00" "Food" 2024 3 5 "lunch"; mk "20.00" "Food" 2024 3 10 ""]
  /\ (exists s, monthly_summary (Some 3) (Some 2024) (at_2026 Compensated) march_ledger = Ok s
                /\ count s = 3%nat)
  /\ (exists s, monthly_summary (Some 0) None (at_2026 Compensated) march_ledger = Ok s
                /\ count s = 0%nat /\ total s = PyInt 0).
Proof.
  pose proof (entered_queries_succeed Unpadded march_ledger eq_refl)
    as (Hv & Hs & _).
  split; [exact (Hv (Some "Food") (Some 3) (Some 2024)) |]. split.
  - eexists. split; [exact (Hs (Some 3) (Some 2024) (at_2026 Compensated)) | reflexivity].
  - eexists. split; [exact (Hs (Some 0) None (at_2026 Compensated)) |].
    split; vm_compute; reflexivity.
Defined.

Lemma filterM_raises {A} (p : A -> result bool) (ok : A -> bool) (x : exn)
    (l : list A) :
  (forall a, ok a = false -> p a = Raise x) ->
  (forall a, ok a = true -> exists b, p a = Ok b) ->
  forallb ok l = false -> filterM p l = Raise x.
Proof.
  intros Hbad Hgood. induction l as [| a l IH]; cbn [forallb filterM]; intros H;
    [discriminate |].
  destruct (ok a) eqn:Ea; cbn [andb] in H.
  - destruct (Hgood a Ea) as (b & ->). cbn [bind]. now rewrite (IH H).
  - now rewrite (Hbad a Ea).
Qed.

Lemma view_month_undated (m : Z) (l : list Expense) :
  forallb has_date l = false ->
  filterM (fun e => x <- date_month e ;; Ok (x =? m)) l = Raise AttributeError.
Proof.
  apply (filterM_raises _ has_date AttributeError); intros e He;
    unfold has_date, date_month in *; destruct (date e); try discriminate;
    cbn [bind]; eauto.
Qed.

Lemma view_year_undated (y : Z) (l : list Expense) :
  forallb has_date l = false ->
  filterM (fun e => x <- date_year e ;; Ok (x =? y)) l = Raise AttributeError.
Proof.
  apply (filterM_raises _ has_date AttributeError); intros e He;
    unfold has_date, date_year in *; destruct (date e); try discriminate;
    cbn [bind]; eauto.
Qed.

(** X9.  What [view_expenses] does on any ledger.  The category filter
    never fails.  A month filter in force fails with [AttributeError]
    when a record that passed the category filter has no date, and a
    year filter in force when one that passed both earlier filters has
    none; in every other case the result is the ledger filtered by the
    conjunction of the three conditions, in ledger order. *)
Theorem view_expenses_outcome (fc : option string) (fm fy : option Z)
    (t : ExpenseTracker) :
  let l1 := filter (want_category fc) (expenses t) in
  let l2 := filter (want_month fm) l1 in
  view_expenses fc fm fy t
  = if active fm && negb (forallb has_date l1) then Raise AttributeError
    else if active fy && negb (forallb has_date l2) then Raise AttributeError
    else Ok (filter (selected fc fm fy) (expenses t)).
Proof.
  intros l1 l2.
  assert (Sel : filter (want_year fy) l2 = filter (selected fc fm fy) (expenses t)).
  { unfold l2, l1. rewrite !filter_filter. apply filter_ext.
    intros e. unfold selected. now rewrite andb_assoc. }
  unfold view_expenses. rewrite view_category. fold l1.
  assert (M : match fm with
              | Some m =>
                  if truthy (PyInt m)
                  then filterM (fun e => x <- date_month e ;; Ok (x =? m)) l1
                  else Ok l1
              | None => Ok l1
              end
              = if active fm && negb (forallb has_date l1)
                then Raise AttributeError else Ok l2).
  { destruct (forallb has_date l1) eqn:H1.
    - rewrite andb_false_r. now apply view_month.
    - unfold l2, want_month, active, truthy. destruct fm as [m |];
        [| now rewrite filter_all].
      destruct (m =? 0); cbn [negb andb]; [now rewrite filter_all |].
      now apply view_month_undated. }
  rewrite M. destruct (active fm && negb (forallb has_date l1)); [reflexivity |].
  cbn [bind]. rewrite <- Sel.
  destruct (forallb has_date l2) eqn:H2.
  - rewrite andb_false_r. now apply view_year.
  - unfold want_year, active, truthy. destruct fy as [y |];
      [| now rewrite filter_all].
    destruct (y =? 0); cbn [negb andb]; [now rewrite filter_all |].
    now apply view_year_undated.
Qed.

Lemma view_expenses_outcome_witness :
  view_expenses None (Some 3) None undated_ledger = Raise AttributeError
  /\ view_expenses (Some "Food") (Some 3) None undated_ledger
     = Ok [mk "50.00" "Food" 2024 3 5 "lunch"].
Proof.
  split.
  - exact (view_expenses_outcome None (Some 3) None undated_ledger).
  - exact (view_expenses_outcome (Some "Food") (Some 3) None undated_ledger).
Defined.

(** ** The monthly summary, in general *)

Lemma filterM_in_month_dated (m y : Z) (l : list Expense) :
  forallb has_date l = true ->
  filterM (in_month m y) l = Ok (filter (dated m y) l).
Proof.
  intros Hd. apply filterM_total. intros e He.
  rewrite forallb_forall in Hd. specialize (Hd e He).
  unfold has_date, in_month, dated in *. now destruct (date e).
Qed.

(** X10.  One record without a date disables every summary: whatever
    month and year are asked for, and whatever the date of the other
    records, [monthly_summary] raises [AttributeError]. *)
Theorem monthly_summary_undated (t : ExpenseTracker) :
  forallb has_date (expenses t) = false ->
  forall month year sys, monthly_summary month year sys t = Raise AttributeError.
Proof.
  intros Hd month year sys. unfold monthly_summary.
  rewrite (filterM_raises _ has_date AttributeError); [reflexivity | | | exact Hd];
    intros e He; unfold has_date, in_month in *; destruct (date e);
    try discriminate; eauto.
Qed.

Lemma monthly_summary_undated_witness :
  monthly_summary (Some 1) (Some 1999) (at_2026 Plain) undated_ledger
  = Raise AttributeError.
Proof.
  exact (monthly_summary_undated undated_ledger eq_refl
           (Some 1) (Some 1999) (at_2026 Plain)).
Defined.

Section Sums.

Lemma py_add_running (acc x : pyval) :
  running acc = true ->
  if is_number x
  then (exists r, py_add acc x = Ok r /\ running r = true)
       \/ py_add acc x = Raise OverflowError
  else py_add acc x = Raise TypeError.
Proof.
  destruct acc as [| | n | f | | | |]; try discriminate; intros _;
    destruct x as [| b | k | g | s | y m d | l | kv]; cbn [is_number py_add as_int];
    try reflexivity; try (left; eexists; split; reflexivity);
    match goal with
    | |- context [float_of_int ?k] =>
        destruct (float_of_int_result k) as [[h ->] | ->]
    end; cbn [bind]; eauto.
Qed.

Lemma add_all_non_number (l : list pyval) (acc : pyval) :
  running acc = true -> forallb is_number l = false ->
  type_or_overflow (add_all acc l).
Proof.
  revert acc. induction l as [| x l IH]; cbn [forallb add_all]; intros acc Ha H;
    [discriminate |].
  pose proof (py_add_running acc x Ha) as P.
  destruct (is_number x); cbn [andb] in H.
  - destruct P as [(r & -> & Hr) | ->]; [now apply IH | now right].
  - rewrite P. now left.
Qed.

Lemma sum_float_non_number (l : list pyval) (s : float * float) :
  forallb is_number l = false -> type_or_overflow (sum_float s l).
Proof.
  revert s. induction l as [| x l IH]; cbn [forallb]; intros s H; [discriminate |].
  assert (G : is_number x = true -> forallb is_number l = false ->
              type_or_overflow (r <- py_add (PyFloat (flush s)) x ;; add_all r l)).
  { intros Hx Hl. pose proof (py_add_running (PyFloat (flush s)) x eq_refl) as P.
    rewrite Hx in P. destruct P as [(r & -> & Hr) | ->]; [| now right].
    now apply add_all_non_number. }
  destruct x as [| b | k | g | t | y m d | k | kv]; cbn [is_number andb] in H;
    cbn [sum_float as_int]; try (now left); try (now apply IH);
    (destruct (fits_long _); [destruct (float_of_int _) |]);
    try (now apply IH); now apply G.
Qed.

Lemma sum_int_non_number (l : list pyval) (i : Z) :
  forallb is_number l = false -> type_or_overflow (sum_int i l).
Proof.
  revert i. induction l as [| x l IH]; cbn [forallb]; intros i H; [discriminate |].
  destruct x as [| b | k | g | t | y m d | k | kv]; cbn [is_number andb] in H;
    cbn [sum_int as_int py_add bind]; try (now left).
  - destruct (_ && _); [now apply IH | now apply add_all_non_number].
  - destruct (_ && _); [now apply IH | now apply add_all_non_number].
  - destruct (float_of_int_result i) as [[h ->] | ->]; cbn [bind];
      [| now right].
    now apply sum_float_non_number.
Qed.

Lemma py_sum_non_number (how : summation) (l : list pyval) :
  forallb is_number l = false -> type_or_overflow (py_sum how l).
Proof.
  destruct how; cbn [py_sum]; intros H;
    [now apply add_all_non_number | now apply sum_int_non_number].
Qed.

End Sums.

(** X11.  Loading lets amounts through that the summary cannot add: on
    a ledger whose records all carry dates, when some record of the
    month asked for has an amount that is not a number (text, null, a
    list, an object), [monthly_summary] raises [TypeError] -- or
    [OverflowError], when an integer too large for a float is met
    first -- under either way of summing. *)
Theorem monthly_summary_non_number (t : ExpenseTracker) (m y : Z) (sys : env) :
  m <> 0 -> y <> 0 ->
  forallb has_date (expenses t) = true ->
  forallb (fun e => is_number (amount e)) (filter (dated m y) (expenses t)) = false ->
  monthly_summary (Some m) (Some y) sys t = Raise TypeError
  \/ monthly_summary (Some m) (Some y) sys t = Raise OverflowError.
Proof.
  intros Hm Hy Hd Hn. unfold monthly_summary. cbn [truthy].
  apply Z.eqb_neq in Hm, Hy. rewrite Hm, Hy. cbn [negb].
  rewrite (filterM_in_month_dated m y _ Hd). cbn [bind].
  assert (H : forallb is_number (map amount (filter (dated m y) (expenses t))) = false).
  { rewrite <- Hn. clear. induction (filter _ _) as [| e l IH]; cbn; congruence. }
  destruct (py_sum_non_number (float_sum sys) _ H) as [-> | ->]; auto.
Qed.

Lemma monthly_summary_non_number_witness :
  init foreign_file = Ok foreign_ledger
  /\ forall how,
       monthly_summary (Some 11) (Some 2023) (at_2026 how) foreign_ledger
       = Raise TypeError.
Proof.
  split; [reflexivity |]. intros how.
  destruct (monthly_summary_non_number foreign_ledger 11 2023 (at_2026 how))
    as [H | H]; try reflexivity; try lia; [exact H |].
  destruct how; vm_compute in H; discriminate H.
Defined.

(** * Properties of the form's list *)

Lemma row_values_shows {libc : year_style} (e : Expense) (r : row) :
  row_values libc e = Ok r -> shows libc e r.
Proof.
  unfold row_values, shows. destruct (date e) as [| | | | | y m d | |];
    try discriminate.
  destruct (format_2f (amount e)) as [a |]; [| discriminate].
  intros [= <-]. exists y, m, d, a. cbn. auto 6.
Qed.

Lemma insert_rows_all {libc : year_style} (l : list Expense) (rows : list row) :
  forallb (renders libc) l = true ->
  exists added, insert_rows libc l rows = (Ok tt, rows ++ added)
                /\ Forall2 (shows libc) l added.
Proof.
  revert rows. induction l as [| e l IH]; cbn [forallb insert_rows]; intros rows H.
  - exists []. rewrite app_nil_r. split; [reflexivity | constructor].
  - apply andb_prop in H as [He Hl]. unfold renders in He.
    destruct (row_values libc e) as [r |] eqn:Er; [| discriminate].
    destruct (IH (rows ++ [r]) Hl) as (added & -> & Hs).
    exists (r :: added). rewrite <- app_assoc. split; [reflexivity |].
    constructor; [now apply row_values_shows | exact Hs].
Qed.

Lemma insert_rows_stops {libc : year_style}
    (l1 l2 : list Expense) (e : Expense) (x : exn)
    (rows : list row) :
  forallb (renders libc) l1 = true -> row_values libc e = Raise x ->
  exists added, insert_rows libc (l1 ++ e :: l2) rows = (Raise x, rows ++ added)
                /\ Forall2 (shows libc) l1 added.
Proof.
  revert rows. induction l1 as [| e1 l1 IH]; cbn [forallb insert_rows app];
    intros rows H Hx.
  - exists []. rewrite Hx, app_nil_r. split; [reflexivity | constructor].
  - apply andb_prop in H as [He Hl]. unfold renders in He.
    destruct (row_values libc e1) as [r |] eqn:Er; [| discriminate].
    destruct (IH (rows ++ [r]) Hl Hx) as (added & -> & Hs).
    exists (r :: added). rewrite <- app_assoc. split; [reflexivity |].
    constructor; [now apply row_values_shows | exact Hs].
Qed.

Lemma renders_has_date {libc : year_style} (l : list Expense) :
  forallb (renders libc) l = true -> forallb has_date l = true.
Proof.
  rewrite !forallb_forall. intros H e He. specialize (H e He).
  unfold renders, row_values, has_date in *. now destruct (date e).
Qed.

(** X12.  [clear_filters] puts the three boxes back to ["All"] and,
    when every record of the ledger can be shown (it has a date and a
    numeric amount), fills the table with one row per record, in ledger
    order -- whatever the boxes and the table held before.  The ledger
    is not touched. *)
Theorem clear_filters_lists_all (libc : year_style) (app : ExpenseTrackerApp) :
  forallb (renders libc) (expenses (tracker app)) = true ->
  exists rows,
    clear_filters libc app
    = (Ok tt, {| tracker := tracker app; filter_category_var := "All";
                 filter_month_var := "All"; filter_year_var := "All";
                 tree := rows |})
    /\ Forall2 (shows libc) (expenses (tracker app)) rows.
Proof.
  intros H. unfold clear_filters, refresh_expenses_list.
  cbn [filter_category_var filter_month_var filter_year_var tracker
       String.eqb Ascii.eqb Bool.eqb negb bind].
  change (view_expenses None None None (tracker app)) with (Ok (expenses (tracker app))).
  destruct (insert_rows_all (libc := libc) _ [] H) as (rows & -> & Hs).
  exists rows. split; [reflexivity | exact Hs].
Qed.

Lemma clear_filters_lists_all_witness :
  exists rows,
    clear_filters Unpadded (march_app "Food" "May" "2021")
    = (Ok tt, {| tracker := march_ledger; filter_category_var := "All";
                 filter_month_var := "All"; filter_year_var := "All";
                 tree := rows |})
    /\ map row_amount rows = ["$50.00"; "$20.00"; "$100.00"]
    /\ map row_date rows = ["2024-03-05"; "2024-03-10"; "2024-03-01"].
Proof.
  destruct (clear_filters_lists_all Unpadded (march_app "Food" "May" "2021") eq_refl)
    as (rows & E & _).
  exists rows. split; [exact E |].
  vm_compute in E. injection E as <-. split; reflexivity.
Defined.

Ltac each_month i :=
  destruct i as [| p | p]; try lia;
  repeat (destruct p as [p | p |]; try lia).

Lemma strptime_B_strftime_B (i : Z) :
  1 <= i <= 12 ->
  strptime_B (strftime_B i) = Ok i /\ String.eqb (strftime_B i) "All" = false.
Proof.
  intros H. each_month i; split; reflexivity.
Qed.

Lemma int_of_string_not_All (v : string) (y : Z) :
  int_of_string v = Ok y -> String.eqb v "All" = false.
Proof.
  intros H. destruct (String.eqb_spec v "All") as [-> |]; [| reflexivity].
  vm_compute in H. discriminate H.
Qed.

(** X13.  The table shows what the boxes select.  On a ledger whose
    records can all be shown, with any text in the category box, the
    month box at ["All"] or at the name of month [i], and the year box
    at ["All"] or at the decimal text of a year, [refresh_expenses_list]
    succeeds and fills the table with one row for each record that
    [view_expenses] selects for that category, that month number and
    that year, in ledger order -- and nothing else. *)
Theorem refresh_shows_selection (libc : year_style)
    (app : ExpenseTrackerApp) (fm fy : option Z) :
  forallb (renders libc) (expenses (tracker app)) = true ->
  chosen_month (filter_month_var app) fm ->
  chosen_year (filter_year_var app) fy ->
  exists rows,
    refresh_expenses_list libc app
    = (Ok tt, {| tracker := tracker app;
                 filter_category_var := filter_category_var app;
                 filter_month_var := filter_month_var app;
                 filter_year_var := filter_year_var app;
                 tree := rows |})
    /\ Forall2 (shows libc)
         (filter (selected (Some (filter_category_var app)) fm fy)
            (expenses (tracker app)))
         rows.
Proof.
  intros Hr Hm Hy. pose proof (renders_has_date (libc := libc) _ Hr) as Hd.
  unfold refresh_expenses_list.
  assert (M : (if negb (String.eqb (filter_month_var app) "All")
               then m <- strptime_B (filter_month_var app) ;; Ok (Some m)
               else Ok None) = Ok fm).
  { destruct Hm as [[-> ->] | (i & Hi & -> & ->)]; [reflexivity |].
    destruct (strptime_B_strftime_B i Hi) as [-> ->]. reflexivity. }
  assert (Y : (if negb (String.eqb (filter_year_var app) "All")
               then y <- int_of_string (filter_year_var app) ;; Ok (Some y)
               else Ok None) = Ok fy).
  { destruct Hy as [[-> ->] | (y & Ey & ->)]; [reflexivity |].
    now rewrite (int_of_string_not_All _ _ Ey), Ey. }
  rewrite M, Y. cbn [bind].
  set (fc := if String.eqb (filter_category_var app) "All"
             then None else Some (filter_category_var app)).
  assert (V : view_expenses fc fm fy (tracker app)
              = Ok (filter (selected (Some (filter_category_var app)) fm fy)
                      (expenses (tracker app)))).
  { unfold view_expenses. rewrite view_category.
    rewrite view_month by now apply forallb_filter.
    cbn [bind]. rewrite view_year by now do 2 apply forallb_filter.
    rewrite !filter_filter. f_equal. apply filter_ext.
    intros e. unfold selected. rewrite andb_assoc. do 2 f_equal.
    unfold fc, want_category.
    destruct (String.eqb (filter_category_var app) "All") eqn:E;
      rewrite ?E, ?orb_true_r; reflexivity. }
  rewrite V.
  destruct (insert_rows_all (libc := libc) _ []
              (forallb_filter (renders libc)
                 (selected (Some (filter_category_var app)) fm fy) _ Hr))
    as (rows & -> & Hs).
  exists rows. split; [reflexivity | exact Hs].
Qed.

Lemma refresh_shows_selection_witness :
  exists rows,
    fst (refresh_expenses_list Unpadded (march_app "Food" "March" "2024")) = Ok tt
    /\ tree (snd (refresh_expenses_list Unpadded (march_app "Food" "March" "2024"))) = rows
    /\ map row_amount rows = ["$50.00"; "$20.00"].
Proof.
  destruct (refresh_shows_selection Unpadded (march_app "Food" "March" "2024")
              (Some 3) (Some 2024) eq_refl)
    as (rows & E & _).
  - right. exists 3. repeat split; lia.
  - right. exists 2024. split; reflexivity.
  - exists rows. rewrite E. repeat split.
    vm_compute in E. now injection E as <-.
Defined.

(** X14.  A record whose amount is text -- which loading lets through --
    stops the table at its row: with the three boxes at ["All"], when
    the records before it can be shown, [refresh_expenses_list] raises
    [ValueError] and the table holds exactly the rows of those earlier
    records; the record itself and all that follow are not shown. *)
Theorem refresh_stops_at_text_amount (libc : year_style)
    (app : ExpenseTrackerApp)
    (l1 l2 : list Expense) (e : Expense) (s : string) :
  filter_category_var app = "All" ->
  filter_month_var app = "All" ->
  filter_year_var app = "All" ->
  expenses (tracker app) = l1 ++ e :: l2 ->
  forallb (renders libc) l1 = true ->
  has_date e = true ->
  amount e = PyStr s ->
  exists rows,
    refresh_expenses_list libc app
    = (Raise ValueError,
       {| tracker := tracker app; filter_category_var := "All";
          filter_month_var := "All"; filter_year_var := "All"; tree := rows |})
    /\ Forall2 (shows libc) l1 rows.
Proof.
  intros Hc Hm Hy Hl Hr Hd Ha. unfold refresh_expenses_list.
  rewrite Hc, Hm, Hy.
  cbn [String.eqb Ascii.eqb Bool.eqb negb bind].
  change (view_expenses None None None (tracker app)) with (Ok (expenses (tracker app))).
  rewrite Hl.
  assert (Hx : row_values libc e = Raise ValueError).
  { unfold row_values, has_date in *. destruct (date e); try discriminate.
    now rewrite Ha. }
  destruct (insert_rows_stops (libc := libc) l1 l2 e ValueError [] Hr Hx) as (rows & -> & Hs).
  exists rows. split; [reflexivity | exact Hs].
Qed.

Lemma refresh_stops_at_text_amount_witness :
  exists rows,
    refresh_expenses_list Unpadded
      {| tracker := foreign_ledger; filter_category_var := "All";
         filter_month_var := "All"; filter_year_var := "All"; tree := [] |}
    = (Raise ValueError,
       {| tracker := foreign_ledger; filter_category_var := "All";
          filter_month_var := "All"; filter_year_var := "All"; tree := rows |})
    /\ map row_amount rows = ["$12.00"; "$0.00"; "$-5.00"].
Proof.
  destruct (refresh_stops_at_text_amount Unpadded
              {| tracker := foreign_ledger; filter_category_var := "All";
                 filter_month_var := "All"; filter_year_var := "All"; tree := [] |}
              (firstn 3 (expenses foreign_ledger)) []
              (nth 3 (expenses foreign_ledger) (mk "" "" 0 0 0 "")) "abc")
    as (rows & E & _); try reflexivity.
  exists rows. split; [exact E |].
  vm_compute in E. now injection E as <-.
Defined.
